(** * OpenTelemetry instrumentation of [openai.ChatCompletion.create]

    A shallow embedding of
    [src/opentelemetry/instrumentation/openai/__init__.py]: the wrapper
    [_instrumented_create] that brackets a chat-completion call with a trace
    span, and the pair [_instrument_chat] / [_uninstrument] that installs and
    removes it.

    Python values are an inductive type, dictionaries are finite maps with
    string keys, failing code returns an [outcome], and the effects of the
    wrapper (the tracer, the wrapped library, the context) are threaded
    through a state-and-exception monad over an explicit [world]. *)

From Stdlib Require Import PrimFloat Ascii.
From stdpp Require Import gmap strings list pretty.

Set Warnings "-register-all".
Set Default Proof Using "Type".

(** ** Python values *)

(** The values the wrapper can meet: keyword arguments, JSON-like responses.
    Floats are IEEE binary64, as in CPython. *)
Inductive pyval :=
| VNone
| VBool (b : bool)
| VInt (z : Z)
| VFloat (f : float)
| VStr (s : string)
| VList (l : list pyval)
| VDict (d : gmap string pyval).

Abbreviation pydict := (gmap string pyval).

(** [math.inf] *)
Definition math_inf : float := infinity.

(** The exceptions that can cross the wrapper: the two the wrapper's own
    subscripts and loops can raise, and whatever the wrapped library raises,
    kept as a class name and a payload. *)
Inductive exn :=
| KeyError (key : string)
| TypeError
| LibraryError (cls : string) (payload : pyval).

Inductive outcome (A : Type) :=
| Return (a : A)
| Raise (e : exn).
Arguments Return {A} a.
Arguments Raise {A} e.

(** Sequencing of code that may raise: the first exception ends it. *)
#[global] Instance outcome_ret : MRet outcome := λ A a, Return a.

#[global] Instance outcome_bind : MBind outcome := λ A B f o,
  match o with
  | Return a => f a
  | Raise e => Raise e
  end.

(** [for x in l: acc = body(acc, x)], for a body that only computes. *)
Fixpoint for_fold {A B} (body : B → A → outcome B) (l : list A) (acc : B)
    : outcome B :=
  match l with
  | [] => Return acc
  | x :: l' => acc' ← body acc x; for_fold body l' acc'
  end.

(** The line terminator written ["\n"] in the source. *)
Definition newline : string := String "010"%char EmptyString.

(** [bool(v)]: Python's truth value of an object. *)
Definition truthy (v : pyval) : bool :=
  match v with
  | VNone => false
  | VBool b => b
  | VInt z => negb (z =? 0)%Z
  | VFloat f => negb (f =? 0)%float
  | VStr s => negb (String.eqb s "")
  | VList l => match l with [] => false | _ :: _ => true end
  | VDict d => match map_to_list d with [] => false | _ :: _ => true end
  end.

(** [k in d] for a dictionary. *)
Definition contains (d : pydict) (k : string) : bool :=
  match d !! k with Some _ => true | None => false end.

(** [d[k]] for a dictionary: the value, or [KeyError]. *)
Definition dict_getitem (d : pydict) (k : string) : outcome pyval :=
  match d !! k with
  | Some v => Return v
  | None => Raise (KeyError k)
  end.

(** [v[k]] with a string key [k] on an arbitrary object: only a dictionary
    accepts it; lists and strings want integer indices and the other values
    are not subscriptable, both a [TypeError]. *)
Definition getitem (v : pyval) (k : string) : outcome pyval :=
  match v with
  | VDict d => dict_getitem d k
  | _ => Raise TypeError
  end.

(** The items a [for] loop draws from an object.  A list yields its elements,
    a string its one-character strings, a dictionary its keys; the other
    values are not iterable. *)
Fixpoint chars (s : string) : list pyval :=
  match s with
  | EmptyString => []
  | String c s' => VStr (String c EmptyString) :: chars s'
  end.

Definition iterate (v : pyval) : outcome (list pyval) :=
  match v with
  | VList l => Return l
  | VStr s => Return (chars s)
  | VDict d => Return (VStr <$> (map_to_list d).*1)
  | _ => Raise TypeError
  end.

(** [enumerate(l)] *)
Fixpoint enumerate_from (start : nat) (l : list pyval) : list (nat * pyval) :=
  match l with
  | [] => []
  | x :: l' => (start, x) :: enumerate_from (S start) l'
  end.

Definition enumerate (l : list pyval) : list (nat * pyval) := enumerate_from 0 l.

(** ** The tracer and the world *)

(** A tracer as [get_tracer(__name__, __version__, tracer_provider)] makes it. *)
Record Tracer := { instrumenting_module : string; instrumenting_version : string }.

(** A span: its name, the tracer that started it, and the attributes in the
    order of the [set_attribute] calls. *)
Record Span := {
  span_name : string;
  span_tracer : Tracer;
  attributes : list (string * pyval)
}.

(** The attribute mapping of a span: for each key the last value set. *)
Definition attribute_map (sp : Span) : pydict :=
  list_to_map (reverse (attributes sp)).

Definition span_attribute (sp : Span) (k : string) : option pyval :=
  attribute_map sp !! k.

Definition add_attributes (l : list (string * pyval)) (sp : Span) : Span :=
  {| span_name := span_name sp; span_tracer := span_tracer sp;
     attributes := attributes sp ++ l |}.

Section Instrumentation.

(** The state of the wrapped client library and of whatever it talks to. *)
Variable State : Type.

(** [str(v)] of a value that is not a string, as the f-strings of the source
    format it; it belongs to the Python runtime. *)
Variable py_str : pyval → string.

(** The key of the suppression flag, a constant of
    [opentelemetry.instrumentation.utils]. *)
Variable _SUPPRESS_INSTRUMENTATION_KEY : string.

(** ["{v}"] inside an f-string. *)
Definition format_value (v : pyval) : string :=
  match v with
  | VStr s => s
  | _ => py_str v
  end.

(** A callable of the wrapped library: positional arguments, keyword
    arguments and the library state in; a value or an exception and the new
    state out. *)
Definition callable : Type := list pyval → pydict → State → outcome pyval * State.

(** What the wrapper can observe or change:
    - [context]: the current OpenTelemetry context;
    - [library]: the state behind the wrapped callable;
    - [calls]: the invocations the original callable has received, oldest
      first;
    - [active]: the spans that are open, innermost first;
    - [finished]: the spans that were ended and handed over, oldest first. *)
Record world := {
  context : pydict;
  library : State;
  calls : list (list pyval * pydict);
  active : list Span;
  finished : list Span
}.

Definition set_library (s : State) (w : world) : world :=
  {| context := context w; library := s; calls := calls w;
     active := active w; finished := finished w |}.

Definition set_calls (c : list (list pyval * pydict)) (w : world) : world :=
  {| context := context w; library := library w; calls := c;
     active := active w; finished := finished w |}.

Definition set_active (a : list Span) (w : world) : world :=
  {| context := context w; library := library w; calls := calls w;
     active := a; finished := finished w |}.

Definition set_finished (f : list Span) (w : world) : world :=
  {| context := context w; library := library w; calls := calls w;
     active := active w; finished := f |}.

(** ** The monad of the wrapper: state and exceptions *)

Definition M (A : Type) : Type := world → outcome A * world.

#[global] Instance M_ret : MRet M := λ A a w, (Return a, w).

#[global] Instance M_bind : MBind M := λ A B f m w,
  match m w with
  | (Return a, w') => f a w'
  | (Raise e, w') => (Raise e, w')
  end.

(** A pure, fallible step. *)
Definition lift {A} (o : outcome A) : M A := λ w, (o, w).

(** [for x in l: body(x)] *)
Fixpoint for_each {A} (body : A → M ()) (l : list A) : M () :=
  match l with
  | [] => mret ()
  | x :: l' => body x;; for_each body l'
  end.

(** [context_api.get_value(key)]: the value in the current context, [None]
    when the key is not set. *)
Definition get_value (key : string) : M pyval :=
  λ w, (Return (default VNone (context w !! key)), w).

(** Attributes reach the span that is current, the innermost open one. *)
Definition record_attributes (l : list (string * pyval)) (w : world) : world :=
  match active w with
  | sp :: rest => set_active (add_attributes l sp :: rest) w
  | [] => w
  end.

(** [span.set_attribute(k, v)] on the span of the enclosing [with]. *)
Definition set_attribute (k : string) (v : pyval) : M () :=
  λ w, (Return (), record_attributes [(k, v)] w).

(** Leaving a [with tracer.start_as_current_span(..)] block: the innermost
    span is ended and handed over. *)
Definition end_span (w : world) : world :=
  match active w with
  | sp :: rest => set_finished (finished w ++ [sp]) (set_active rest w)
  | [] => w
  end.

(** [with tracer.start_as_current_span(name) as span: body].  The context
    manager starts a span and makes it current, runs the body, and ends the
    span when the block is left, by falling off its end or by an exception,
    which it does not swallow. *)
Definition start_as_current_span {A} (tracer : Tracer) (name : string)
    (body : M A) : M A := λ w,
  let sp := {| span_name := name; span_tracer := tracer; attributes := [] |} in
  let '(r, w') := body (set_active (sp :: active w) w) in
  (r, end_span w').

(** Calling the original, never-wrapped callable: it runs on the library
    state, and the call is counted. *)
Definition invoke (f : callable) (args : list pyval) (kwargs : pydict) : M pyval :=
  λ w,
  let '(r, s') := f args kwargs (library w) in
  (r, set_calls (calls w ++ [(args, kwargs)]) (set_library s' w)).

(** ** The wrapper *)

(** [_instrumented_create(wrapped, instance, args, kwargs)], the closure that
    [_instrument_chat(tracer)] builds. *)
Definition _instrumented_create (tracer : Tracer)
    (wrapped : list pyval → pydict → M pyval)
    (instance : pyval) (args : list pyval) (kwargs : pydict) : M pyval :=
  suppress ← get_value _SUPPRESS_INSTRUMENTATION_KEY;
  if truthy suppress then mret VNone else
  let name := "openai.chat" in
  response ← start_as_current_span tracer name (
    v ← lift (dict_getitem kwargs "model");
    set_attribute (name +:+ ".model") v;;
    v ← lift (if contains kwargs "temperature"
              then dict_getitem kwargs "temperature" else Return (VFloat 1));
    set_attribute (name +:+ ".temperature") v;;
    v ← lift (if contains kwargs "top_p"
              then dict_getitem kwargs "top_p" else Return (VFloat 1));
    set_attribute (name +:+ ".top_p") v;;
    v ← lift (if contains kwargs "n"
              then dict_getitem kwargs "n" else Return (VInt 1));
    set_attribute (name +:+ ".n") v;;
    v ← lift (if contains kwargs "stream"
              then dict_getitem kwargs "stream" else Return (VBool false));
    set_attribute (name +:+ ".stream") v;;
    v ← lift (if contains kwargs "stop"
              then dict_getitem kwargs "stop" else Return (VStr ""));
    set_attribute (name +:+ ".stop") v;;
    v ← lift (if contains kwargs "max_tokens"
              then dict_getitem kwargs "max_tokens" else Return (VFloat math_inf));
    set_attribute (name +:+ ".max_tokens") v;;
    v ← lift (if contains kwargs "presence_penalty"
              then dict_getitem kwargs "presence_penalty" else Return (VFloat 0));
    set_attribute (name +:+ ".presence_penalty") v;;
    v ← lift (if contains kwargs "frequency_penalty"
              then dict_getitem kwargs "frequency_penalty" else Return (VFloat 0));
    set_attribute (name +:+ ".frequency_penalty") v;;
    v ← lift (if contains kwargs "logit_bias"
              then dict_getitem kwargs "logit_bias" else Return (VStr ""));
    set_attribute (name +:+ ".logit_bias") v;;
    v ← lift (if contains kwargs "name"
              then dict_getitem kwargs "name" else Return (VStr ""));
    set_attribute (name +:+ ".name") v;;

    messages ← lift (dict_getitem kwargs "messages");
    items ← lift (iterate messages);
    messages_str ← lift (for_fold (λ messages_str message,
        role ← getitem message "role";
        content ← getitem message "content";
        mret (messages_str +:+ format_value role +:+ ": "
                           +:+ format_value content +:+ newline))
      items "");
    set_attribute (name +:+ ".messages") (VStr messages_str);;

    response ← wrapped args kwargs;

    v ← lift (getitem response "id");
    set_attribute (name +:+ ".response.id") v;;
    v ← lift (getitem response "object");
    set_attribute (name +:+ ".response.object") v;;
    v ← lift (getitem response "created");
    set_attribute (name +:+ ".response.created") v;;
    choices ← lift (getitem response "choices");
    items ← lift (iterate choices);
    for_each (λ '(index, choice),
        message ← lift (getitem choice "message");
        v ← lift (getitem message "role");
        set_attribute (name +:+ ".response.choices." +:+ pretty index
                            +:+ ".message.role") v;;
        message ← lift (getitem choice "message");
        v ← lift (getitem message "content");
        set_attribute (name +:+ ".response.choices." +:+ pretty index
                            +:+ ".message.content") v;;
        v ← lift (getitem choice "finish_reason");
        set_attribute (name +:+ ".response.choices." +:+ pretty index
                            +:+ ".finish_reason") v)
      (enumerate items);;

    usage ← lift (getitem response "usage");
    v ← lift (getitem usage "prompt_tokens");
    set_attribute (name +:+ ".response.usage.prompt_tokens") v;;
    usage ← lift (getitem response "usage");
    v ← lift (getitem usage "completion_tokens");
    set_attribute (name +:+ ".response.usage.completion_tokens") v;;
    usage ← lift (getitem response "usage");
    v ← lift (getitem usage "total_tokens");
    set_attribute (name +:+ ".response.usage.total_tokens") v;;
    mret response);
  mret response.

(** ** Installing and removing the wrapper *)

(** The signature [wrapt] asks of a wrapper:
    [wrapper(wrapped, instance, args, kwargs)]. *)
Definition wrapper_function : Type :=
  (list pyval → pydict → M pyval) → pyval → list pyval → pydict → M pyval.

(** What the attribute [openai.ChatCompletion.create] holds: the library's
    own function, or a [wrapt] function wrapper around what was there, which
    keeps it as [__wrapped__]. *)
Inductive method :=
| Original (f : callable)
| FunctionWrapper (__wrapped__ : method) (wrapper : wrapper_function).

(** Calling [openai.ChatCompletion.create] with positional arguments [args]
    and keyword arguments [kwargs]: a function
    wrapper hands the call to its wrapper, with what it wraps as [wrapped]
    and the class as [instance]. *)
Fixpoint call (m : method) (instance : pyval) (args : list pyval)
    (kwargs : pydict) : M pyval :=
  match m with
  | Original f => invoke f args kwargs
  | FunctionWrapper inner wrapper => wrapper (call inner instance) instance args kwargs
  end.

(** [wrapt.wrap_function_wrapper(module, name, wrapper)] on the attribute. *)
Definition wrap_function_wrapper (create : method) (wrapper : wrapper_function) : method :=
  FunctionWrapper create wrapper.

(** [unwrap(obj, attr)] of [opentelemetry.instrumentation.utils]: an attribute
    that is a function wrapper is replaced by its [__wrapped__]; anything else
    is left alone. *)
Definition unwrap (create : method) : method :=
  match create with
  | FunctionWrapper inner _ => inner
  | Original f => Original f
  end.

(** [_instrument_chat(tracer)], as a function of the attribute it patches. *)
Definition _instrument_chat (tracer : Tracer) (create : method) : method :=
  wrap_function_wrapper create
    (_instrumented_create tracer).

(** [_uninstrument()], as a function of the attribute it patches. *)
Definition _uninstrument (create : method) : method :=
  unwrap create.

(** ** The two halves of the span's body

    The body of the [with] block is the request-side projection, the call,
    and the response-side projection.  The halves are named here, each with
    what follows it as a continuation; [instrumented_create_blocks] shows
    that they are the wrapper's own code. *)

(** Line 78, one turn of the loop over the messages. *)
Definition message_step (messages_str : string) (message : pyval) : outcome string :=
  role ← getitem message "role";
  content ← getitem message "content";
  mret (messages_str +:+ format_value role +:+ ": "
                     +:+ format_value content +:+ newline).

(** Lines 76-78: the text built from the items of [messages]. *)
Definition flatten_messages (items : list pyval) : outcome string :=
  for_fold message_step items "".

(** Lines 60-80, followed by [rest]. *)
Definition request_then {A} (kwargs : pydict) (rest : M A) : M A :=
  let name := "openai.chat" in
  v ← lift (dict_getitem kwargs "model");
  set_attribute (name +:+ ".model") v;;
  v ← lift (if contains kwargs "temperature"
            then dict_getitem kwargs "temperature" else Return (VFloat 1));
  set_attribute (name +:+ ".temperature") v;;
  v ← lift (if contains kwargs "top_p"
            then dict_getitem kwargs "top_p" else Return (VFloat 1));
  set_attribute (name +:+ ".top_p") v;;
  v ← lift (if contains kwargs "n"
            then dict_getitem kwargs "n" else Return (VInt 1));
  set_attribute (name +:+ ".n") v;;
  v ← lift (if contains kwargs "stream"
            then dict_getitem kwargs "stream" else Return (VBool false));
  set_attribute (name +:+ ".stream") v;;
  v ← lift (if contains kwargs "stop"
            then dict_getitem kwargs "stop" else Return (VStr ""));
  set_attribute (name +:+ ".stop") v;;
  v ← lift (if contains kwargs "max_tokens"
            then dict_getitem kwargs "max_tokens" else Return (VFloat math_inf));
  set_attribute (name +:+ ".max_tokens") v;;
  v ← lift (if contains kwargs "presence_penalty"
            then dict_getitem kwargs "presence_penalty" else Return (VFloat 0));
  set_attribute (name +:+ ".presence_penalty") v;;
  v ← lift (if contains kwargs "frequency_penalty"
            then dict_getitem kwargs "frequency_penalty" else Return (VFloat 0));
  set_attribute (name +:+ ".frequency_penalty") v;;
  v ← lift (if contains kwargs "logit_bias"
            then dict_getitem kwargs "logit_bias" else Return (VStr ""));
  set_attribute (name +:+ ".logit_bias") v;;
  v ← lift (if contains kwargs "name"
            then dict_getitem kwargs "name" else Return (VStr ""));
  set_attribute (name +:+ ".name") v;;
  messages ← lift (dict_getitem kwargs "messages");
  items ← lift (iterate messages);
  messages_str ← lift (flatten_messages items);
  set_attribute (name +:+ ".messages") (VStr messages_str);;
  rest.

(** Lines 88-90, the body of the loop over the choices. *)
Definition choice_body : nat * pyval → M () := λ '(index, choice),
  let name := "openai.chat" in
  message ← lift (getitem choice "message");
  v ← lift (getitem message "role");
  set_attribute (name +:+ ".response.choices." +:+ pretty index
                        +:+ ".message.role") v;;
  message ← lift (getitem choice "message");
  v ← lift (getitem message "content");
  set_attribute (name +:+ ".response.choices." +:+ pretty index
                        +:+ ".message.content") v;;
  v ← lift (getitem choice "finish_reason");
  set_attribute (name +:+ ".response.choices." +:+ pretty index
                        +:+ ".finish_reason") v.

(** Lines 92-94 and the end of the block. *)
Definition usage_then (response : pyval) : M pyval :=
  let name := "openai.chat" in
  usage ← lift (getitem response "usage");
  v ← lift (getitem usage "prompt_tokens");
  set_attribute (name +:+ ".response.usage.prompt_tokens") v;;
  usage ← lift (getitem response "usage");
  v ← lift (getitem usage "completion_tokens");
  set_attribute (name +:+ ".response.usage.completion_tokens") v;;
  usage ← lift (getitem response "usage");
  v ← lift (getitem usage "total_tokens");
  set_attribute (name +:+ ".response.usage.total_tokens") v;;
  mret response.

(** Lines 84-94 and the end of the block. *)
Definition response_then (response : pyval) : M pyval :=
  let name := "openai.chat" in
  v ← lift (getitem response "id");
  set_attribute (name +:+ ".response.id") v;;
  v ← lift (getitem response "object");
  set_attribute (name +:+ ".response.object") v;;
  v ← lift (getitem response "created");
  set_attribute (name +:+ ".response.created") v;;
  choices ← lift (getitem response "choices");
  items ← lift (iterate choices);
  for_each choice_body (enumerate items);;
  usage_then response.

(** ** What the projections are to record *)

(** The key of the attribute for a field: the constant prefix of the
    operation, then the field. *)
Definition attribute_key (field : string) : string := "openai.chat." +:+ field.

(** The optional request fields with the value recorded when the caller
    leaves them out. *)
Definition optional_defaults : list (string * pyval) :=
  [ ("temperature", VFloat 1); ("top_p", VFloat 1); ("n", VInt 1);
    ("stream", VBool false); ("stop", VStr ""); ("max_tokens", VFloat infinity);
    ("presence_penalty", VFloat 0); ("frequency_penalty", VFloat 0);
    ("logit_bias", VStr ""); ("name", VStr "") ].

Definition optional_attributes (kwargs : pydict) : list (string * pyval) :=
  (λ '(field, dflt), (attribute_key field, default dflt (kwargs !! field)))
    <$> optional_defaults.

(** The request-side projection as a function: the attributes recorded, in
    order, and the exception that stopped it, if one did. *)
Definition request_projection (kwargs : pydict) : list (string * pyval) * option exn :=
  match kwargs !! "model" with
  | None => ([], Some (KeyError "model"))
  | Some model =>
    let attrs := (attribute_key "model", model) :: optional_attributes kwargs in
    match kwargs !! "messages" with
    | None => (attrs, Some (KeyError "messages"))
    | Some messages =>
      match items ← iterate messages; flatten_messages items with
      | Raise e => (attrs, Some e)
      | Return text => (attrs ++ [(attribute_key "messages", VStr text)], None)
      end
    end
  end.

(** The fields the response-side projection reads from one choice. *)
Definition choice_fields (choice : pyval) : option (pyval * pyval * pyval) :=
  match choice with
  | VDict c =>
    match c !! "message" with
    | Some (VDict m) =>
      role ← m !! "role"; content ← m !! "content";
      finish_reason ← c !! "finish_reason";
      Some (role, content, finish_reason)
    | _ => None
    end
  | _ => None
  end.

Definition choice_key (index : nat) (field : string) : string :=
  attribute_key ("response.choices." +:+ pretty index +:+ "." +:+ field).

(** The set of attributes of the choice at position [index]. *)
Definition choice_attributes (index : nat) (fields : pyval * pyval * pyval)
    : list (string * pyval) :=
  let '(role, content, finish_reason) := fields in
  [ (choice_key index "message.role", role);
    (choice_key index "message.content", content);
    (choice_key index "finish_reason", finish_reason) ].

(** One set per choice, numbered from [start] in the order of the sequence. *)
Fixpoint choices_attributes_from (start : nat) (fields : list (pyval * pyval * pyval))
    : list (string * pyval) :=
  match fields with
  | [] => []
  | f :: fields' => choice_attributes start f ++ choices_attributes_from (S start) fields'
  end.

(** What the projection reads from a response that has every required field. *)
Record response_fields := {
  response_id : pyval;
  response_object : pyval;
  response_created : pyval;
  response_choices : list (pyval * pyval * pyval);
  usage_prompt_tokens : pyval;
  usage_completion_tokens : pyval;
  usage_total_tokens : pyval
}.

Definition read_response (response : pyval) : option response_fields :=
  match response with
  | VDict d =>
    id ← d !! "id"; object ← d !! "object"; created ← d !! "created";
    choices ← d !! "choices";
    match iterate choices with
    | Return items =>
      fields ← mapM choice_fields items;
      match d !! "usage" with
      | Some (VDict u) =>
        prompt ← u !! "prompt_tokens"; completion ← u !! "completion_tokens";
        total ← u !! "total_tokens";
        Some {| response_id := id; response_object := object;
                response_created := created; response_choices := fields;
                usage_prompt_tokens := prompt;
                usage_completion_tokens := completion;
                usage_total_tokens := total |}
      | _ => None
      end
    | Raise _ => None
    end
  | _ => None
  end.

Definition response_attributes (r : response_fields) : list (string * pyval) :=
  [ (attribute_key "response.id", response_id r);
    (attribute_key "response.object", response_object r);
    (attribute_key "response.created", response_created r) ]
  ++ choices_attributes_from 0 (response_choices r)
  ++ [ (attribute_key "response.usage.prompt_tokens", usage_prompt_tokens r);
       (attribute_key "response.usage.completion_tokens", usage_completion_tokens r);
       (attribute_key "response.usage.total_tokens", usage_total_tokens r) ].

(** [k.startswith(p)] *)
Fixpoint starts_with (p k : string) : bool :=
  match p with
  | EmptyString => true
  | String a p' =>
    match k with
    | EmptyString => false
    | String b k' => Ascii.eqb a b && starts_with p' k'
    end
  end.

(** A key of the response side of the schema. *)
Definition response_key (k : string) : Prop :=
  starts_with "openai.chat.response." k = true.

(** A computation that does nothing to the world but record attributes, all
    under keys that satisfy [P], and whose result does not depend on the
    world. *)
Definition projects {A} (P : string → Prop) (m : M A) : Prop :=
  ∃ attrs o, (∀ w, m w = (o, record_attributes attrs w)) ∧ Forall (λ kv, P kv.1) attrs.

(** ** Responses that lack a field *)

(** A choice that lacks a required field: [k] is the key of the first lookup
    that does not find its field. *)
Inductive choice_lacks : pyval → string → Prop :=
| lacks_message (c : pydict) :
    c !! "message" = None → choice_lacks (VDict c) "message"
| lacks_role (c m : pydict) :
    c !! "message" = Some (VDict m) → m !! "role" = None →
    choice_lacks (VDict c) "role"
| lacks_content (c m : pydict) :
    c !! "message" = Some (VDict m) → is_Some (m !! "role") →
    m !! "content" = None →
    choice_lacks (VDict c) "content"
| lacks_finish_reason (c m : pydict) :
    c !! "message" = Some (VDict m) → is_Some (m !! "role") →
    is_Some (m !! "content") → c !! "finish_reason" = None →
    choice_lacks (VDict c) "finish_reason".

(** The same for the usage object. *)
Inductive usage_lacks : pydict → string → Prop :=
| lacks_prompt_tokens (u : pydict) :
    u !! "prompt_tokens" = None → usage_lacks u "prompt_tokens"
| lacks_completion_tokens (u : pydict) :
    is_Some (u !! "prompt_tokens") → u !! "completion_tokens" = None →
    usage_lacks u "completion_tokens"
| lacks_total_tokens (u : pydict) :
    is_Some (u !! "prompt_tokens") → is_Some (u !! "completion_tokens") →
    u !! "total_tokens" = None →
    usage_lacks u "total_tokens".

(** A response that lacks a required field, the fields before it in the order
    of the projection being there. *)
Inductive response_lacks : pyval → string → Prop :=
| lacks_id (d : pydict) :
    d !! "id" = None → response_lacks (VDict d) "id"
| lacks_object (d : pydict) :
    is_Some (d !! "id") → d !! "object" = None →
    response_lacks (VDict d) "object"
| lacks_created (d : pydict) :
    is_Some (d !! "id") → is_Some (d !! "object") → d !! "created" = None →
    response_lacks (VDict d) "created"
| lacks_choices (d : pydict) :
    is_Some (d !! "id") → is_Some (d !! "object") → is_Some (d !! "created") →
    d !! "choices" = None →
    response_lacks (VDict d) "choices"
| lacks_in_choice (d : pydict) before choice after k :
    is_Some (d !! "id") → is_Some (d !! "object") → is_Some (d !! "created") →
    d !! "choices" = Some (VList (before ++ choice :: after)) →
    Forall (λ c, is_Some (choice_fields c)) before →
    choice_lacks choice k →
    response_lacks (VDict d) k
| lacks_usage (d : pydict) choices :
    is_Some (d !! "id") → is_Some (d !! "object") → is_Some (d !! "created") →
    d !! "choices" = Some (VList choices) →
    Forall (λ c, is_Some (choice_fields c)) choices →
    d !! "usage" = None →
    response_lacks (VDict d) "usage"
| lacks_usage_field (d u : pydict) choices k :
    is_Some (d !! "id") → is_Some (d !! "object") → is_Some (d !! "created") →
    d !! "choices" = Some (VList choices) →
    Forall (λ c, is_Some (choice_fields c)) choices →
    d !! "usage" = Some (VDict u) →
    usage_lacks u k →
    response_lacks (VDict d) k.

(** ** The world around one invocation *)

(** The truth value the wrapper reads from the context at entry. *)
Definition suppression_flag (w : world) : bool :=
  truthy (default VNone (context w !! _SUPPRESS_INSTRUMENTATION_KEY)).

(** The world once a span of [tracer] with these attributes was ended and
    handed over. *)
Definition finish_span (tracer : Tracer) (attrs : list (string * pyval))
    (w : world) : world :=
  set_finished
    (finished w ++ [ {| span_name := "openai.chat"; span_tracer := tracer;
                        attributes := attrs |} ]) w.

(** The world once the original callable was invoked and left [s']. *)
Definition count_call (args : list pyval) (kwargs : pydict) (s' : State)
    (w : world) : world :=
  set_calls (calls w ++ [(args, kwargs)]) (set_library s' w).

(** ** Requests *)

(** A message as the loop needs it: an object with a role and a content. *)
Definition is_message (m : pyval) : bool :=
  match m with
  | VDict d => contains d "role" && contains d "content"
  | _ => false
  end.

(** A valid set of keyword arguments: [model] is there, and [messages] is
    there and is a sequence of messages. *)
Definition valid_request (kwargs : pydict) : bool :=
  contains kwargs "model" &&
  match kwargs !! "messages" with
  | Some messages =>
    match iterate messages with
    | Return items => forallb is_message items
    | Raise _ => false
    end
  | None => false
  end.

(** The line of one message, and the text of a sequence of them. *)
Definition message_line (role content : string) : string :=
  role +:+ ": " +:+ content +:+ newline.

Fixpoint messages_text (lines : list (string * string)) : string :=
  match lines with
  | [] => ""
  | (role, content) :: lines' => message_line role content +:+ messages_text lines'
  end.

(** The role and the content of a message, formatted as the f-string does. *)
Definition message_fields (m : pyval) : option (string * string) :=
  match m with
  | VDict d =>
    role ← d !! "role"; content ← d !! "content";
    Some (format_value role, format_value content)
  | _ => None
  end.

(** What a request that goes through records. *)
Definition request_attributes (kwargs : pydict) (model : pyval) (text : string)
    : list (string * pyval) :=
  (attribute_key "model", model) :: optional_attributes kwargs
  ++ [(attribute_key "messages", VStr text)].

(** ** Reading attributes back *)

(** The value a key ends with after a sequence of [set_attribute] calls. *)
Fixpoint last_value (k : string) (l : list (string * pyval)) : option pyval :=
  match l with
  | [] => None
  | (k', v) :: l' =>
    match last_value k l' with
    | Some x => Some x
    | None => if decide (k' = k) then Some v else None
    end
  end.

(** A key of the flattened choices. *)
Definition choices_key (k : string) : Prop :=
  starts_with "openai.chat.response.choices." k = true.

(** Whether a key is one is decided by looking at it. *)
#[global] Instance choices_key_dec k : Decision (choices_key k).
Proof. unfold choices_key. apply _. Defined.

(** The decimal digits, and the strings made of them. *)
Definition is_digit (c : ascii) : bool :=
  match Ascii.is_nat c with Some _ => true | None => false end.

Fixpoint all_digits (s : string) : bool :=
  match s with
  | EmptyString => true
  | String c s' => is_digit c && all_digits s'
  end.

(** What a span ends with after a call that went through. *)
Definition complete_attributes (kwargs : pydict) (model : pyval) (text : string)
    (r : response_fields) : list (string * pyval) :=
  request_attributes kwargs model text ++ response_attributes r.

(** ** Faults of the wrapper's own making *)

(** The exceptions the wrapper's subscripts and loops raise. *)
Definition lookup_error (e : exn) : Prop :=
  match e with
  | KeyError _ | TypeError => True
  | LibraryError _ _ => False
  end.

(** An item of [messages] the loop of lines 77-78 stops at, and the
    exception it stops with. *)
Inductive message_fault : pyval → exn → Prop :=
| fault_not_mapping m :
    (∀ d : pydict, m ≠ VDict d) → message_fault m TypeError
| fault_no_role (d : pydict) :
    d !! "role" = None → message_fault (VDict d) (KeyError "role")
| fault_no_content (d : pydict) :
    is_Some (d !! "role") → d !! "content" = None →
    message_fault (VDict d) (KeyError "content").

(** A [messages] that is no sequence of objects: a value that cannot be
    iterated, a string that has characters, a dictionary that has keys. *)
Definition unusable_messages (messages : pyval) : bool :=
  match messages with
  | VList _ => false
  | VStr s => negb (String.eqb s "")
  | VDict d => negb (bool_decide (d = ∅))
  | _ => true
  end.

(** The span a tracer hands over once it is ended with these attributes. *)
Definition ended_span (tracer : Tracer) (attrs : list (string * pyval)) : Span :=
  {| span_name := "openai.chat"; span_tracer := tracer; attributes := attrs |}.

(** * Properties *)

(** ** The wrapper in blocks *)

(** The wrapper is its two halves around the call. *)
Lemma instrumented_create_blocks tracer wrapped instance args kwargs :
  _instrumented_create tracer wrapped instance args kwargs =
  (suppress ← get_value _SUPPRESS_INSTRUMENTATION_KEY;
   if truthy suppress then mret VNone else
   response ← start_as_current_span tracer "openai.chat"
     (request_then kwargs
        (response ← wrapped args kwargs; response_then response));
   mret response).
Proof. reflexivity. Qed.

(** ** Basic facts *)

Lemma add_attributes_nil sp : add_attributes [] sp = sp.
Proof. destruct sp; unfold add_attributes; simpl; by rewrite app_nil_r. Qed.

Lemma add_attributes_app l1 l2 sp :
  add_attributes l2 (add_attributes l1 sp) = add_attributes (l1 ++ l2) sp.
Proof. unfold add_attributes; simpl; by rewrite app_assoc. Qed.

Lemma record_attributes_nil w : record_attributes [] w = w.
Proof.
  destruct w as [c s cl [|sp rest] fin]; unfold record_attributes; simpl; [done|].
  unfold set_active; simpl. by rewrite add_attributes_nil.
Qed.

Lemma record_attributes_app l1 l2 w :
  record_attributes l2 (record_attributes l1 w) = record_attributes (l1 ++ l2) w.
Proof.
  destruct w as [c s cl [|sp rest] fin]; unfold record_attributes; simpl; [done|].
  unfold set_active; simpl. by rewrite add_attributes_app.
Qed.

Lemma dict_getitem_Some (d : pydict) k v : d !! k = Some v → dict_getitem d k = Return v.
Proof. unfold dict_getitem; by intros ->. Qed.

Lemma dict_getitem_None (d : pydict) k : d !! k = None → dict_getitem d k = Raise (KeyError k).
Proof. unfold dict_getitem; by intros ->. Qed.

(** The conditional expression [d[k] if k in d else v]. *)
Lemma conditional_getitem (d : pydict) k v :
  (if contains d k then dict_getitem d k else Return v) = Return (default v (d !! k)).
Proof. unfold contains, dict_getitem; by destruct (d !! k). Qed.

Lemma bind_lift_return {A B} (a : A) (f : A → M B) w :
  (lift (Return a) ≫= f) w = f a w.
Proof. reflexivity. Qed.

Lemma bind_lift_raise {A B} e (f : A → M B) w :
  (lift (Raise e) ≫= f) w = (Raise e, w).
Proof. reflexivity. Qed.

Lemma bind_set_attribute {B} k v (f : () → M B) w :
  (set_attribute k v ≫= f) w = f () (record_attributes [(k, v)] w).
Proof. reflexivity. Qed.

Lemma set_attribute_run k v w :
  set_attribute k v w = (Return (), record_attributes [(k, v)] w).
Proof. reflexivity. Qed.

Lemma request_then_spec {A} (kwargs : pydict) (rest : M A) w :
  request_then kwargs rest w =
  match request_projection kwargs with
  | (attrs, Some e) => (Raise e, record_attributes attrs w)
  | (attrs, None) => rest (record_attributes attrs w)
  end.
Proof.
  unfold request_then, request_projection; cbv zeta.
  destruct (kwargs !! "model") as [model|] eqn:Hmodel.
  2:{ rewrite (dict_getitem_None _ _ Hmodel), bind_lift_raise.
      by rewrite record_attributes_nil. }
  rewrite (dict_getitem_Some _ _ _ Hmodel), bind_lift_return, bind_set_attribute.
  rewrite !conditional_getitem.
  do 10 (rewrite bind_lift_return, bind_set_attribute).
  rewrite !record_attributes_app.
  destruct (kwargs !! "messages") as [messages|] eqn:Hmessages.
  2:{ by rewrite (dict_getitem_None _ _ Hmessages), bind_lift_raise. }
  rewrite (dict_getitem_Some _ _ _ Hmessages), bind_lift_return.
  destruct (iterate messages) as [items|e]; simpl.
  2:{ by rewrite bind_lift_raise. }
  rewrite bind_lift_return.
  destruct (flatten_messages items) as [text|e].
  2:{ by rewrite bind_lift_raise. }
  rewrite bind_lift_return, bind_set_attribute, record_attributes_app.
  reflexivity.
Qed.

(** ** The response-side projection only records attributes *)

Lemma projects_ret {A} P (a : A) : projects P (mret a).
Proof. exists [], (Return a). split; [|constructor]. intros w. by rewrite record_attributes_nil. Qed.

Lemma projects_lift {A} P (o : outcome A) : projects P (lift o).
Proof. exists [], o. split; [|constructor]. intros w. by rewrite record_attributes_nil. Qed.

Lemma projects_set_attribute P k v : P k → projects P (set_attribute k v).
Proof. intros Hk. exists [(k, v)], (Return ()). split; [done|]. by repeat constructor. Qed.

Lemma projects_bind {A B} P (m : M A) (f : A → M B) :
  projects P m → (∀ a, projects P (f a)) → projects P (m ≫= f).
Proof.
  intros (l1 & [a|e] & Hm & Hl1) Hf.
  - destruct (Hf a) as (l2 & o & Hfa & Hl2).
    exists (l1 ++ l2), o. split; [|by apply Forall_app].
    intros w. unfold mbind, M_bind. by rewrite Hm, Hfa, record_attributes_app.
  - exists l1, (Raise e). split; [|done].
    intros w. unfold mbind, M_bind. by rewrite Hm.
Qed.

Lemma projects_for_each {A} P (body : A → M ()) l :
  (∀ x, projects P (body x)) → projects P (for_each body l).
Proof.
  intros Hbody. induction l as [|x l IH]; simpl.
  - apply projects_ret.
  - apply projects_bind; [apply Hbody|]. by intros _.
Qed.

Lemma projects_choice_body x : projects response_key (choice_body x).
Proof.
  destruct x as [index choice]. unfold choice_body; cbv zeta.
  repeat first
    [ apply projects_lift
    | apply projects_set_attribute; reflexivity
    | apply projects_bind; [|intros ?] ].
Qed.

Lemma projects_usage_then response : projects response_key (usage_then response).
Proof.
  unfold usage_then; cbv zeta.
  repeat first
    [ apply projects_lift
    | apply projects_ret
    | apply projects_set_attribute; reflexivity
    | apply projects_bind; [|intros ?] ].
Qed.

(** Whatever the response is, the second half of the body only records
    attributes under response keys. *)
Lemma projects_response_then response : projects response_key (response_then response).
Proof.
  unfold response_then; cbv zeta.
  repeat first
    [ apply projects_lift
    | apply projects_usage_then
    | apply projects_for_each; apply projects_choice_body
    | apply projects_set_attribute; reflexivity
    | apply projects_bind; [|intros ?] ].
Qed.

(** ** The response-side projection, step by step *)

Ltac lookups :=
  repeat match goal with
  | H : ?d !! ?k = Some ?v |- context [dict_getitem ?d ?k] =>
      rewrite (dict_getitem_Some d k v H)
  | H : ?d !! ?k = None |- context [dict_getitem ?d ?k] =>
      rewrite (dict_getitem_None d k H)
  end.

Ltac steps :=
  repeat first
    [ progress cbn [getitem]
    | progress lookups
    | rewrite bind_lift_return
    | rewrite bind_lift_raise
    | rewrite bind_set_attribute
    | rewrite set_attribute_run
    | rewrite record_attributes_app ].

Lemma choice_body_ok index choice fields w :
  choice_fields choice = Some fields →
  choice_body (index, choice) w
  = (Return (), record_attributes (choice_attributes index fields) w).
Proof.
  intros H. destruct choice as [| | | | | |c]; try discriminate.
  simpl in H.
  destruct (c !! "message") as [[| | | | | |m]|] eqn:Hmessage; try discriminate.
  destruct (m !! "role") as [role|] eqn:Hrole; try discriminate.
  destruct (m !! "content") as [content|] eqn:Hcontent; try discriminate.
  destruct (c !! "finish_reason") as [finish_reason|] eqn:Hfinish; try discriminate.
  simpl in H. injection H as <-.
  unfold choice_body; cbv zeta. steps. reflexivity.
Qed.

Lemma choice_body_lacks index choice k :
  choice_lacks choice k →
  ∃ attrs, ∀ w, choice_body (index, choice) w
              = (Raise (KeyError k), record_attributes attrs w).
Proof.
  intros H. destruct H as
    [c Hm | c m Hm Hr | c m Hm [r Hr] Hc | c m Hm [r Hr] [ct Hc] Hf];
    eexists; intros w; unfold choice_body; cbv zeta; steps;
    try reflexivity.
  by rewrite record_attributes_nil.
  by rewrite record_attributes_nil.
Qed.

Lemma bind_run_return {A B} (m : M A) (f : A → M B) a w w' :
  m w = (Return a, w') → (m ≫= f) w = f a w'.
Proof. intros H. unfold mbind, M_bind. by rewrite H. Qed.

Lemma bind_run_raise {A B} (m : M A) (f : A → M B) e w w' :
  m w = (Raise e, w') → (m ≫= f) w = (Raise e, w').
Proof. intros H. unfold mbind, M_bind. by rewrite H. Qed.

Lemma for_each_choices_ok items fields :
  mapM choice_fields items = Some fields →
  ∀ start w, for_each choice_body (enumerate_from start items) w
           = (Return (), record_attributes (choices_attributes_from start fields) w).
Proof.
  rewrite mapM_Some. induction 1 as [|choice f items fields Hf _ IH]; intros start w.
  - simpl. by rewrite record_attributes_nil.
  - simpl. rewrite (bind_run_return _ _ _ _ _ (choice_body_ok start choice f w Hf)).
    by rewrite IH, record_attributes_app.
Qed.

Lemma mapM_choice_fields_all before :
  Forall (λ c, is_Some (choice_fields c)) before →
  ∃ fields, mapM choice_fields before = Some fields.
Proof.
  intros H. apply mapM_is_Some_2 in H. by destruct H as [fields ->]; eexists.
Qed.

Lemma for_each_choices_lacks before choice after k :
  Forall (λ c, is_Some (choice_fields c)) before →
  choice_lacks choice k →
  ∀ start, ∃ attrs, ∀ w,
    for_each choice_body (enumerate_from start (before ++ choice :: after)) w
    = (Raise (KeyError k), record_attributes attrs w).
Proof.
  intros Hbefore Hlacks.
  induction Hbefore as [|c before [f Hf] _ IH]; intros start; simpl.
  - destruct (choice_body_lacks start choice k Hlacks) as [attrs Hbody].
    exists attrs. intros w. by rewrite (bind_run_raise _ _ _ _ _ (Hbody w)).
  - destruct (IH (S start)) as [attrs Hrest].
    exists (choice_attributes start f ++ attrs). intros w.
    rewrite (bind_run_return _ _ _ _ _ (choice_body_ok start c f w Hf)).
    by rewrite Hrest, record_attributes_app.
Qed.

(** A response with every required field: the projection records
    [response_attributes] and hands the response on. *)
Lemma response_then_ok response r :
  read_response response = Some r →
  ∀ w, response_then response w
     = (Return response, record_attributes (response_attributes r) w).
Proof.
  intros H w. destruct response as [| | | | | |d]; try discriminate.
  simpl in H.
  destruct (d !! "id") as [id|] eqn:Hid; try discriminate.
  destruct (d !! "object") as [object|] eqn:Hobject; try discriminate.
  destruct (d !! "created") as [created|] eqn:Hcreated; try discriminate.
  destruct (d !! "choices") as [choices|] eqn:Hchoices; try discriminate.
  simpl in H.
  destruct (iterate choices) as [items|] eqn:Hitems; try discriminate.
  destruct (mapM choice_fields items) as [fields|] eqn:Hfields; try discriminate.
  simpl in H.
  destruct (d !! "usage") as [[| | | | | |u]|] eqn:Husage; try discriminate.
  destruct (u !! "prompt_tokens") as [prompt|] eqn:Hprompt; try discriminate.
  destruct (u !! "completion_tokens") as [completion|] eqn:Hcompletion; try discriminate.
  destruct (u !! "total_tokens") as [total|] eqn:Htotal; try discriminate.
  simpl in H. injection H as <-.
  unfold response_then; cbv zeta. steps. rewrite Hitems. steps.
  rewrite (bind_run_return _ _ _ _ _ (for_each_choices_ok items fields Hfields 0 _)).
  unfold usage_then; cbv zeta. steps.
  reflexivity.
Qed.

(** A response that lacks a required field: the projection raises the
    [KeyError] of that field. *)
Lemma response_then_lacks response k :
  response_lacks response k →
  ∃ attrs, ∀ w, response_then response w
              = (Raise (KeyError k), record_attributes attrs w).
Proof.
  intros H. destruct H as
    [ d Hid
    | d [id Hid] Hobject
    | d [id Hid] [object Hobject] Hcreated
    | d [id Hid] [object Hobject] [created Hcreated] Hchoices
    | d before choice after k [id Hid] [object Hobject] [created Hcreated]
        Hchoices Hbefore Hchoice
    | d choices [id Hid] [object Hobject] [created Hcreated] Hchoices Hall Husage
    | d u choices k [id Hid] [object Hobject] [created Hcreated] Hchoices Hall
        Husage Hu ].
  - eexists; intros w; unfold response_then; cbv zeta; steps.
    by rewrite record_attributes_nil.
  - eexists; intros w; unfold response_then; cbv zeta; steps. reflexivity.
  - eexists; intros w; unfold response_then; cbv zeta; steps. reflexivity.
  - eexists; intros w; unfold response_then; cbv zeta; steps. reflexivity.
  - destruct (for_each_choices_lacks before choice after k Hbefore Hchoice 0)
      as [attrs Hloop].
    eexists; intros w; unfold response_then; cbv zeta; steps.
    simpl iterate; steps. unfold enumerate.
    rewrite (bind_run_raise _ _ _ _ _ (Hloop _)). steps. reflexivity.
  - destruct (mapM_choice_fields_all choices Hall) as [fields Hfields].
    eexists; intros w; unfold response_then; cbv zeta; steps.
    simpl iterate; steps.
    rewrite (bind_run_return _ _ _ _ _ (for_each_choices_ok choices fields Hfields 0 _)).
    unfold usage_then; cbv zeta. steps. reflexivity.
  - destruct (mapM_choice_fields_all choices Hall) as [fields Hfields].
    destruct Hu as
      [ u Hprompt
      | u [prompt Hprompt] Hcompletion
      | u [prompt Hprompt] [completion Hcompletion] Htotal ];
    eexists; intros w; unfold response_then; cbv zeta; steps;
    simpl iterate; steps;
    rewrite (bind_run_return _ _ _ _ _ (for_each_choices_ok choices fields Hfields 0 _));
    unfold usage_then; cbv zeta; steps; reflexivity.
Qed.

(** ** One invocation of the wrapper *)

Lemma run_unsuppressed tracer wrapped instance args kwargs w :
  suppression_flag w = false →
  _instrumented_create tracer wrapped instance args kwargs w =
  (response ← start_as_current_span tracer "openai.chat"
     (request_then kwargs
        (response ← wrapped args kwargs; response_then response));
   mret response) w.
Proof.
  intros Hflag. rewrite instrumented_create_blocks.
  rewrite (bind_run_return (get_value _SUPPRESS_INSTRUMENTATION_KEY) _
    (default VNone (context w !! _SUPPRESS_INSTRUMENTATION_KEY)) w w eq_refl).
  unfold suppression_flag in Hflag. by rewrite Hflag.
Qed.

Lemma end_span_record tracer attrs w :
  end_span (record_attributes attrs
    (set_active ({| span_name := "openai.chat"; span_tracer := tracer;
                    attributes := [] |} :: active w) w))
  = finish_span tracer attrs w.
Proof. by destruct w. Qed.

Lemma end_span_record_call tracer attrs extra args kwargs s' w :
  end_span (record_attributes extra (count_call args kwargs s' (record_attributes attrs
    (set_active ({| span_name := "openai.chat"; span_tracer := tracer;
                    attributes := [] |} :: active w) w))))
  = finish_span tracer (attrs ++ extra) (count_call args kwargs s' w).
Proof. by destruct w. Qed.

Lemma invoke_run f args kwargs w :
  invoke f args kwargs w
  = ((f args kwargs (library w)).1,
     count_call args kwargs (f args kwargs (library w)).2 w).
Proof. unfold invoke. by destruct (f args kwargs (library w)). Qed.

Lemma library_record_attributes attrs w :
  library (record_attributes attrs w) = library w.
Proof. unfold record_attributes. by destruct (active w). Qed.

(** The request-side projection stops with an exception: it reaches the
    caller, the span is ended with what was recorded, and [wrapped] is not
    called. *)
Lemma run_request_fails tracer wrapped instance args kwargs w attrs e :
  suppression_flag w = false →
  request_projection kwargs = (attrs, Some e) →
  _instrumented_create tracer wrapped instance args kwargs w
  = (Raise e, finish_span tracer attrs w).
Proof.
  intros Hflag Hreq. rewrite run_unsuppressed by done.
  erewrite bind_run_raise; [reflexivity|].
  unfold start_as_current_span. rewrite request_then_spec, Hreq.
  by rewrite end_span_record.
Qed.

(** The original callable raises. *)
Lemma run_call_raises tracer (f : callable) instance args kwargs w attrs e s' :
  suppression_flag w = false →
  request_projection kwargs = (attrs, None) →
  f args kwargs (library w) = (Raise e, s') →
  _instrumented_create tracer (invoke f) instance args kwargs w
  = (Raise e, finish_span tracer attrs (count_call args kwargs s' w)).
Proof.
  intros Hflag Hreq Hf. rewrite run_unsuppressed by done.
  erewrite bind_run_raise; [reflexivity|].
  unfold start_as_current_span. rewrite request_then_spec, Hreq.
  erewrite bind_run_raise.
  2:{ rewrite invoke_run, library_record_attributes. simpl. rewrite Hf. reflexivity. }
  simpl. rewrite <- (app_nil_r attrs) at 2.
  rewrite <- (end_span_record_call tracer attrs [] args kwargs s' w).
  by rewrite record_attributes_nil.
Qed.

(** The original callable returns, and the response-side projection does
    [o] while recording [extra]. *)
Lemma run_call_returns tracer (f : callable) instance args kwargs w attrs
    response s' extra o :
  suppression_flag w = false →
  request_projection kwargs = (attrs, None) →
  f args kwargs (library w) = (Return response, s') →
  (∀ w0, response_then response w0 = (o, record_attributes extra w0)) →
  _instrumented_create tracer (invoke f) instance args kwargs w
  = (o, finish_span tracer (attrs ++ extra) (count_call args kwargs s' w)).
Proof.
  intros Hflag Hreq Hf Hresp. rewrite run_unsuppressed by done.
  assert (start_as_current_span tracer "openai.chat"
    (request_then kwargs (response ← invoke f args kwargs; response_then response)) w
    = (o, finish_span tracer (attrs ++ extra) (count_call args kwargs s' w))) as Hspan.
  { unfold start_as_current_span. rewrite request_then_spec, Hreq.
    erewrite bind_run_return.
    2:{ rewrite invoke_run, library_record_attributes. simpl. rewrite Hf. reflexivity. }
    simpl. rewrite Hresp. by rewrite end_span_record_call. }
  destruct o as [r|e].
  - erewrite bind_run_return; [|exact Hspan]. reflexivity.
  - erewrite bind_run_raise; [|exact Hspan]. reflexivity.
Qed.

(** Every invocation that is not suppressed ends exactly one span: it holds
    what the request side recorded, then attributes under response keys
    only; the span stack is as before. *)
Lemma run_attributes tracer (f : callable) instance args kwargs w :
  suppression_flag w = false →
  ∃ o extra w0,
    _instrumented_create tracer (invoke f) instance args kwargs w
    = (o, finish_span tracer ((request_projection kwargs).1 ++ extra) w0)
    ∧ Forall (λ kv, response_key kv.1) extra
    ∧ finished w0 = finished w ∧ active w0 = active w.
Proof.
  intros Hflag. destruct (request_projection kwargs) as [attrs [e|]] eqn:Hreq.
  - exists (Raise e), [], w. rewrite app_nil_r.
    split; [by apply run_request_fails|done].
  - destruct (f args kwargs (library w)) as [[response|e] s'] eqn:Hf.
    + destruct (projects_response_then response) as (extra & o & Hresp & Hkeys).
      exists o, extra, (count_call args kwargs s' w).
      split; [by eapply run_call_returns|done].
    + exists (Raise e), [], (count_call args kwargs s' w). rewrite app_nil_r.
      split; [by apply run_call_raises|done].
Qed.

(** ** Valid requests *)

Lemma string_app_nil_r (s : string) : s +:+ "" = s.
Proof.
  induction s as [|a s IH]; [done|].
  change (String a (s +:+ "") = String a s). by rewrite IH.
Qed.

Lemma string_app_assoc (s1 s2 s3 : string) : (s1 +:+ s2) +:+ s3 = s1 +:+ s2 +:+ s3.
Proof.
  induction s1 as [|a s1 IH]; [done|].
  change (String a ((s1 +:+ s2) +:+ s3) = String a (s1 +:+ s2 +:+ s3)).
  by rewrite IH.
Qed.

Lemma message_fields_is_message m : is_Some (message_fields m) ↔ is_message m = true.
Proof.
  destruct m as [| | | | | |d]; simpl; try (split; [by intros [? ?]|done]).
  unfold contains.
  destruct (d !! "role"), (d !! "content"); simpl; split; try done;
    by intros [? ?].
Qed.

Lemma for_fold_messages items lines acc :
  mapM message_fields items = Some lines →
  for_fold message_step items acc = Return (acc +:+ messages_text lines).
Proof.
  rewrite mapM_Some. intros H. revert acc.
  induction H as [|m [role content] items lines Hm _ IH]; intros acc;
    cbn [for_fold messages_text]; unfold message_step.
  - f_equal. symmetry. apply string_app_nil_r.
  - destruct m as [| | | | | |d]; try discriminate. simpl in Hm.
    destruct (d !! "role") as [r|] eqn:Hr; try discriminate.
    destruct (d !! "content") as [c|] eqn:Hc; try discriminate.
    simpl in Hm. injection Hm as <- <-.
    cbn [getitem].
    rewrite (dict_getitem_Some _ _ _ Hr), (dict_getitem_Some _ _ _ Hc).
    cbn [mbind outcome_bind mret outcome_ret].
    rewrite IH. unfold message_line. by rewrite !string_app_assoc.
Qed.

Lemma flatten_messages_ok items lines :
  mapM message_fields items = Some lines →
  flatten_messages items = Return (messages_text lines).
Proof. intros H. unfold flatten_messages. by rewrite (for_fold_messages _ _ _ H). Qed.

Lemma flatten_messages_fails items :
  mapM message_fields items = None → ∃ e, flatten_messages items = Raise e.
Proof.
  unfold flatten_messages. generalize ("" : string) as acc.
  induction items as [|m items IH]; intros acc H; [done|].
  cbn [for_fold]. unfold message_step. simpl in H.
  destruct m as [| | | | | |d]; try (by eexists).
  cbn [getitem]. unfold dict_getitem. simpl in H.
  destruct (d !! "role") as [role|]; [|by eexists].
  destruct (d !! "content") as [content|]; [|by eexists].
  simpl in H. cbn [mbind outcome_bind mret outcome_ret].
  apply IH. by destruct (mapM message_fields items).
Qed.

(** A valid request goes through the request-side projection. *)
Lemma valid_request_projection kwargs :
  valid_request kwargs = true →
  ∃ model messages items lines,
    kwargs !! "model" = Some model ∧ kwargs !! "messages" = Some messages ∧
    iterate messages = Return items ∧ mapM message_fields items = Some lines ∧
    request_projection kwargs
    = (request_attributes kwargs model (messages_text lines), None).
Proof.
  unfold valid_request, contains, request_projection.
  destruct (kwargs !! "model") as [model|]; [|done].
  destruct (kwargs !! "messages") as [messages|]; [|done].
  destruct (iterate messages) as [items|] eqn:Hitems; [|done]. simpl.
  intros Hall. rewrite forallb_forall in Hall.
  assert (is_Some (mapM message_fields items)) as [lines Hlines].
  { apply mapM_is_Some, Forall_forall. intros m Hm.
    apply message_fields_is_message, Hall. by apply list_elem_of_In. }
  exists model, messages, items, lines. repeat split; try done.
  by rewrite (flatten_messages_ok _ _ Hlines).
Qed.

(** And only a valid request does. *)
Lemma valid_request_iff kwargs :
  valid_request kwargs = true ↔ (request_projection kwargs).2 = None.
Proof.
  split.
  - intros H. destruct (valid_request_projection kwargs H)
      as (? & ? & ? & ? & _ & _ & _ & _ & ->). done.
  - unfold valid_request, contains, request_projection.
    destruct (kwargs !! "model") as [model|]; [|done].
    destruct (kwargs !! "messages") as [messages|]; [|done].
    destruct (iterate messages) as [items|]; [|done]. simpl.
    destruct (mapM message_fields items) as [lines|] eqn:Hlines.
    + intros _. apply forallb_forall. intros m Hm.
      apply message_fields_is_message.
      assert (is_Some (mapM message_fields items)) as Hall by (by eexists).
      rewrite mapM_is_Some, Forall_forall in Hall.
      apply Hall. by apply list_elem_of_In.
    + destruct (flatten_messages_fails items Hlines) as [e ->]. done.
Qed.

(** ** Attributes read back *)

Lemma attribute_map_last_value l k :
  (list_to_map (reverse l) : pydict) !! k = last_value k l.
Proof.
  induction l as [|[k' v] l IH]; [done|].
  rewrite reverse_cons, list_to_map_app, lookup_union, IH. simpl.
  destruct (last_value k l); simpl.
  - by destruct (<[k':=v]> (∅ : pydict) !! k).
  - rewrite (left_id None _), lookup_insert. destruct (decide (k' = k)); [done|].
    by rewrite lookup_empty.
Qed.

Lemma span_attribute_last_value sp k :
  span_attribute sp k = last_value k (attributes sp).
Proof. apply attribute_map_last_value. Qed.

Lemma last_value_app k l1 l2 :
  last_value k (l1 ++ l2)
  = match last_value k l2 with Some x => Some x | None => last_value k l1 end.
Proof.
  induction l1 as [|[k' v] l1 IH]; simpl.
  - by destruct (last_value k l2).
  - rewrite IH. by destruct (last_value k l2).
Qed.

Lemma last_value_None k l :
  Forall (λ kv, kv.1 ≠ k) l → last_value k l = None.
Proof.
  induction 1 as [|[k' v] l Hk _ IH]; simpl; [done|].
  rewrite IH. simpl in Hk. by destruct (decide (k' = k)).
Qed.

Lemma last_value_response_keys k extra :
  ¬ response_key k → Forall (λ kv, response_key kv.1) extra →
  last_value k extra = None.
Proof.
  intros Hk Hextra. apply last_value_None.
  eapply Forall_impl; [exact Hextra|].
  intros [k' v] Hk' Heq. simpl in *. subst. by apply Hk.
Qed.

(** With [model] there, the request side records it, then the optional
    fields, then at most the messages. *)
Lemma request_projection_with_model kwargs model :
  kwargs !! "model" = Some model →
  ∃ tail, (request_projection kwargs).1
          = ((attribute_key "model", model) :: optional_attributes kwargs) ++ tail
        ∧ Forall (λ kv, kv.1 = attribute_key "messages") tail.
Proof.
  intros Hmodel. unfold request_projection. rewrite Hmodel.
  destruct (kwargs !! "messages") as [messages|]; simpl.
  - destruct (_ ≫= _) as [text|e]; simpl.
    + eexists [_]. split; [reflexivity|]. by repeat constructor.
    + exists []. split; [reflexivity|constructor].
  - exists []. split; [reflexivity|constructor].
Qed.

(** The optional fields as the span ends with them. *)
Lemma optional_attribute_recorded kwargs model tail extra field dflt :
  (field, dflt) ∈ optional_defaults →
  Forall (λ kv, kv.1 = attribute_key "messages") tail →
  Forall (λ kv, response_key kv.1) extra →
  last_value (attribute_key field)
    ((((attribute_key "model", model) :: optional_attributes kwargs) ++ tail) ++ extra)
  = Some (default dflt (kwargs !! field)).
Proof.
  intros Hfield Htail Hextra. rewrite !last_value_app.
  unfold optional_defaults in Hfield.
  repeat (apply elem_of_cons in Hfield as [Hfield|Hfield];
          [injection Hfield as -> ->|]);
    try (by apply elem_of_nil in Hfield);
    (rewrite (last_value_response_keys _ extra); [|by intros ?|done]);
    (rewrite (last_value_None _ tail);
       [|eapply Forall_impl; [exact Htail|];
         intros [k' v] Heq ?; simpl in *; by subst]);
    reflexivity.
Qed.

Lemma finish_span_fields tracer attrs w :
  calls (finish_span tracer attrs w) = calls w
  ∧ library (finish_span tracer attrs w) = library w
  ∧ active (finish_span tracer attrs w) = active w
  ∧ context (finish_span tracer attrs w) = context w.
Proof. done. Qed.

Lemma request_keys_not_response kwargs model text :
  Forall (λ kv, ¬ response_key kv.1) (request_attributes kwargs model text).
Proof. unfold request_attributes, response_key. repeat constructor; by intros ?. Qed.

(** While the wrapper is installed, a call that is not suppressed does end a
    span. *)
Lemma instrumented_call_ends_span tracer (f : callable) instance args kwargs w :
  suppression_flag w = false →
  ∃ sp, finished (call (_instrument_chat tracer (Original f))
                    instance args kwargs w).2 = finished w ++ [sp]
        ∧ span_name sp = "openai.chat" ∧ span_tracer sp = tracer.
Proof.
  intros Hflag.
  destruct (run_attributes tracer f instance args kwargs w Hflag)
    as (o & extra & w0 & Hrun & _ & Hfin & _).
  eexists.
  change (call (_instrument_chat tracer (Original f)) instance args kwargs w)
    with (_instrumented_create tracer (invoke f) instance args kwargs w).
  rewrite Hrun. simpl. rewrite Hfin. by repeat split.
Qed.

Lemma message_fields_of_strings items (lines : list (string * string)) :
  Forall2 (λ m line, ∃ d : pydict, m = VDict d
             ∧ d !! "role" = Some (VStr line.1)
             ∧ d !! "content" = Some (VStr line.2)) items lines →
  mapM message_fields items = Some lines.
Proof.
  intros H. apply mapM_Some. eapply Forall2_impl; [exact H|].
  intros m [role content] (d & -> & Hrole & Hcontent). simpl in *.
  by rewrite Hrole, Hcontent.
Qed.

(** ** The keys of the choices *)

Lemma string_app_cons c (a x : string) : String c a +:+ x = String c (a +:+ x).
Proof. reflexivity. Qed.

Lemma string_app_nil_l (x : string) : "" +:+ x = x.
Proof. reflexivity. Qed.

Lemma pretty_N_char_digit x : is_digit (pretty_N_char x) = true.
Proof. unfold pretty_N_char. by repeat case_match. Qed.

Lemma pretty_N_go_digits x s :
  all_digits s = true → all_digits (pretty_N_go x s) = true.
Proof.
  revert s. induction (N.lt_wf_0 x) as [x _ IH]; intros s Hs.
  destruct (decide (x = 0)%N) as [->|]; [by rewrite pretty_N_go_0|].
  rewrite pretty_N_go_step by lia. apply IH; [apply N.div_lt; lia|].
  simpl. by rewrite pretty_N_char_digit.
Qed.

(** The decimal numeral of an index is made of digits. *)
Lemma pretty_nat_digits (n : nat) : all_digits (pretty n) = true.
Proof.
  unfold pretty, pretty_nat, pretty, pretty_N.
  case_decide; [done|]. by apply pretty_N_go_digits.
Qed.

Lemma digits_dot_inj (a b f g : string) :
  all_digits a = true → all_digits b = true →
  a +:+ "." +:+ f = b +:+ "." +:+ g → a = b ∧ f = g.
Proof.
  revert b. induction a as [|c a IH]; intros [|c' b] Ha Hb H;
    rewrite ?string_app_cons, ?string_app_nil_l in H.
  - by injection H as ->.
  - injection H as <- _. by simpl in Hb.
  - injection H as -> _. by simpl in Ha.
  - injection H as -> H. simpl in Ha, Hb.
    apply andb_prop in Ha as [_ Ha]. apply andb_prop in Hb as [_ Hb].
    destruct (IH b Ha Hb H) as [-> ->]. done.
Qed.

(** Two keys of choices are the same only for the same index and field. *)
Lemma choice_key_inj i j f g : choice_key i f = choice_key j g → i = j ∧ f = g.
Proof.
  unfold choice_key, attribute_key. intros H.
  apply (inj (String.append _)) in H. apply (inj (String.append _)) in H.
  apply digits_dot_inj in H as [H ->]; [|apply pretty_nat_digits..].
  by apply (inj pretty) in H as ->.
Qed.

Lemma choice_key_is_choices_key i f : choices_key (choice_key i f).
Proof. reflexivity. Qed.

Lemma last_value_not_choices k l :
  choices_key k → Forall (λ kv : string * pyval, ¬ choices_key kv.1) l → last_value k l = None.
Proof.
  intros Hk Hl. apply last_value_None. eapply Forall_impl; [exact Hl|].
  intros [k' v] Hk' Heq. simpl in *. by subst.
Qed.

(** The sets of the choices, read back by index. *)
Lemma last_value_choices_outside i field start fields :
  i < start ∨ start + length fields ≤ i →
  last_value (choice_key i field) (choices_attributes_from start fields) = None.
Proof.
  revert start. induction fields as [|[[role content] finish_reason] fields IH];
    intros start Hi; [done|].
  cbn [choices_attributes_from choice_attributes].
  rewrite last_value_app, IH by (simpl in Hi; lia). cbn [last_value].
  repeat (destruct (decide _) as [Heq|_];
          [apply choice_key_inj in Heq as [-> _]; simpl in Hi; lia|]).
  done.
Qed.

Lemma last_value_choices_inside n start fields role content finish_reason :
  fields !! n = Some (role, content, finish_reason) →
  last_value (choice_key (start + n) "message.role")
    (choices_attributes_from start fields) = Some role
  ∧ last_value (choice_key (start + n) "message.content")
    (choices_attributes_from start fields) = Some content
  ∧ last_value (choice_key (start + n) "finish_reason")
    (choices_attributes_from start fields) = Some finish_reason.
Proof.
  revert n start. induction fields as [|f fields IH]; intros n start Hn; [done|].
  cbn [choices_attributes_from]. rewrite !last_value_app.
  destruct n as [|n]; simpl in Hn.
  - injection Hn as ->. rewrite Nat.add_0_r.
    rewrite !last_value_choices_outside by lia.
    cbn [last_value choice_attributes].
    repeat (destruct (decide _) as [Heq|?];
            [try (apply choice_key_inj in Heq as [_ [=]])|try done]).
    done.
  - replace (start + S n) with (S start + n) by lia.
    destruct (IH n (S start) Hn) as (-> & -> & ->). done.
Qed.

Lemma filter_choices_attributes start fields :
  filter (λ kv : string * pyval, choices_key kv.1) (choices_attributes_from start fields)
  = choices_attributes_from start fields.
Proof.
  revert start. induction fields as [|[[role content] finish_reason] fields IH];
    intros start; [done|].
  cbn [choices_attributes_from choice_attributes].
  rewrite filter_app, IH.
  by rewrite !filter_cons_True, filter_nil by apply choice_key_is_choices_key.
Qed.

Lemma length_choices_attributes start fields :
  length (choices_attributes_from start fields) = 3 * length fields.
Proof.
  revert start. induction fields as [|[[role content] finish_reason] fields IH];
    intros start; [done|].
  cbn [choices_attributes_from choice_attributes]. rewrite length_app, IH.
  simpl. lia.
Qed.

Lemma filter_not_choices l :
  Forall (λ kv : string * pyval, ¬ choices_key kv.1) l → filter (λ kv : string * pyval, choices_key kv.1) l = [].
Proof.
  induction 1 as [|kv l Hkv _ IH]; [done|]. by rewrite filter_cons_False.
Qed.

Lemma request_keys_not_choices kwargs model text :
  Forall (λ kv : string * pyval, ¬ choices_key kv.1) (request_attributes kwargs model text).
Proof. unfold request_attributes, choices_key. repeat constructor; by intros ?. Qed.

Lemma read_response_choices response r choices :
  read_response response = Some r →
  getitem response "choices" = Return (VList choices) →
  mapM choice_fields choices = Some (response_choices r).
Proof.
  intros H Hchoices. destruct response as [| | | | | |d]; try discriminate.
  simpl in H, Hchoices. unfold dict_getitem in Hchoices.
  destruct (d !! "id") as [id|]; try discriminate.
  destruct (d !! "object") as [object|]; try discriminate.
  destruct (d !! "created") as [created|]; try discriminate.
  destruct (d !! "choices") as [c|]; try discriminate.
  injection Hchoices as ->. simpl in H.
  destruct (mapM choice_fields choices) as [fields|]; try discriminate.
  simpl in H.
  destruct (d !! "usage") as [[| | | | | |u]|]; try discriminate.
  destruct (u !! "prompt_tokens"); try discriminate.
  destruct (u !! "completion_tokens"); try discriminate.
  destruct (u !! "total_tokens"); try discriminate.
  simpl in H. by injection H as <-.
Qed.

Lemma complete_attributes_choices kwargs model text r :
  filter (λ kv : string * pyval, choices_key kv.1) (complete_attributes kwargs model text r)
  = choices_attributes_from 0 (response_choices r).
Proof.
  unfold complete_attributes, response_attributes.
  rewrite !filter_app, filter_choices_attributes.
  rewrite (filter_not_choices (request_attributes _ _ _))
    by apply request_keys_not_choices.
  rewrite !filter_not_choices by (repeat constructor; by intros ?).
  simpl. by rewrite app_nil_r.
Qed.

Lemma complete_attributes_choice_key kwargs model text r i field :
  last_value (choice_key i field) (complete_attributes kwargs model text r)
  = last_value (choice_key i field) (choices_attributes_from 0 (response_choices r)).
Proof.
  unfold complete_attributes, response_attributes.
  rewrite !last_value_app.
  rewrite (last_value_not_choices _ (request_attributes _ _ _))
    by (apply choice_key_is_choices_key || apply request_keys_not_choices).
  rewrite !(last_value_not_choices _ [_; _; _])
    by (apply choice_key_is_choices_key || (repeat constructor; by intros ?)).
  by destruct (last_value _ _).
Qed.

(** ** The properties of the wrapper *)

(** C1. Transparency of the wrapped call.  An invocation that is not
    suppressed, with a valid set of keyword arguments, whose response has
    every required field: the original callable is invoked once, with the
    caller's positional and keyword arguments as they are, and what it
    returns is what the caller gets.  The world is the one the direct call
    leaves, with one more finished span. *)
Theorem wrapped_call_is_transparent tracer (f : callable) instance args kwargs
    w response s' :
  suppression_flag w = false →
  valid_request kwargs = true →
  f args kwargs (library w) = (Return response, s') →
  is_Some (read_response response) →
  ∃ sp,
    _instrumented_create tracer (invoke f) instance args kwargs w
    = (Return response,
       set_finished (finished w ++ [sp]) (invoke f args kwargs w).2)
    ∧ (invoke f args kwargs w).1 = Return response
    ∧ calls (invoke f args kwargs w).2 = calls w ++ [(args, kwargs)]
    ∧ library (invoke f args kwargs w).2 = s'.
Proof.
  intros Hflag Hvalid Hf [r Hr].
  destruct (valid_request_projection kwargs Hvalid)
    as (model & messages & items & lines & _ & _ & _ & _ & Hreq).
  eexists. split.
  - rewrite (run_call_returns tracer f instance args kwargs w _ response s' _ _
               Hflag Hreq Hf (response_then_ok response r Hr)).
    rewrite invoke_run, Hf. reflexivity.
  - by rewrite invoke_run, Hf.
Qed.

(** C2. Suppression short-circuit.  While the suppression flag is set the
    wrapper returns [None] at once and leaves the world as it found it:
    whatever [wrapped] is, it is not invoked (no call is counted, the library
    state is untouched), and no span is opened or ended. *)
Theorem suppressed_call_short_circuits tracer wrapped instance args kwargs w :
  suppression_flag w = true →
  _instrumented_create tracer wrapped instance args kwargs w = (Return VNone, w).
Proof.
  intros Hflag. unfold suppression_flag in Hflag.
  rewrite instrumented_create_blocks.
  rewrite (bind_run_return (get_value _SUPPRESS_INSTRUMENTATION_KEY) _
    (default VNone (context w !! _SUPPRESS_INSTRUMENTATION_KEY)) w w eq_refl).
  by rewrite Hflag.
Qed.

(** C3. Defaults of the optional fields.  For every optional request field
    of the table, the span ends with the attribute of the field set to the
    value the caller supplied, as it is, when the key is among the keyword
    arguments, and to the default of the table when it is not.  The recorded
    value is the default without being a supplied value exactly when the key
    is absent.  This holds for every invocation that is not suppressed and
    has [model], whatever the call does afterwards. *)
Theorem optional_fields_default tracer (f : callable) instance args kwargs w model :
  suppression_flag w = false →
  kwargs !! "model" = Some model →
  ∃ o sp w',
    _instrumented_create tracer (invoke f) instance args kwargs w = (o, w')
    ∧ finished w' = finished w ++ [sp]
    ∧ ∀ field dflt, (field, dflt) ∈ optional_defaults →
        span_attribute sp (attribute_key field)
        = Some (match kwargs !! field with Some v => v | None => dflt end)
        ∧ (∀ v, kwargs !! field = Some v →
             span_attribute sp (attribute_key field) = Some v)
        ∧ (kwargs !! field = None ↔
             span_attribute sp (attribute_key field) = Some dflt
             ∧ kwargs !! field ≠ span_attribute sp (attribute_key field)).
Proof.
  intros Hflag Hmodel.
  destruct (run_attributes tracer f instance args kwargs w Hflag)
    as (o & extra & w0 & Hrun & Hextra & Hfin & _).
  destruct (request_projection_with_model kwargs model Hmodel)
    as (tail & Hreq & Htail).
  eexists o, _, _. split; [exact Hrun|]. split; [simpl; by rewrite Hfin|].
  intros field dflt Hfield.
  rewrite span_attribute_last_value. simpl. rewrite Hreq.
  rewrite (optional_attribute_recorded kwargs model tail extra field dflt
             Hfield Htail Hextra).
  destruct (kwargs !! field) as [v|]; simpl.
  - split; [done|]. split; [by intros ? [= ->]|].
    split; [done|]. by intros [_ ?].
  - by repeat split.
Qed.

(** C4. Flattening of the messages.  With [messages] a list of objects whose
    role and content are strings, the span ends with the messages attribute
    set to the lines ["role: content"], each ended by a newline, in the
    order of the list.  This holds for every invocation that is not
    suppressed and has [model], whatever the call does afterwards. *)
Theorem messages_are_flattened tracer (f : callable) instance args kwargs w
    model items (lines : list (string * string)) :
  suppression_flag w = false →
  kwargs !! "model" = Some model →
  kwargs !! "messages" = Some (VList items) →
  Forall2 (λ m line, ∃ d : pydict, m = VDict d
             ∧ d !! "role" = Some (VStr line.1)
             ∧ d !! "content" = Some (VStr line.2)) items lines →
  ∃ o sp w',
    _instrumented_create tracer (invoke f) instance args kwargs w = (o, w')
    ∧ finished w' = finished w ++ [sp]
    ∧ span_attribute sp "openai.chat.messages" = Some (VStr (messages_text lines)).
Proof.
  intros Hflag Hmodel Hmessages Hlines.
  apply message_fields_of_strings in Hlines.
  destruct (run_attributes tracer f instance args kwargs w Hflag)
    as (o & extra & w0 & Hrun & Hextra & Hfin & _).
  assert (request_projection kwargs
          = (request_attributes kwargs model (messages_text lines), None)) as Hreq.
  { unfold request_projection. rewrite Hmodel, Hmessages. simpl.
    by rewrite (flatten_messages_ok _ _ Hlines). }
  eexists o, _, _. split; [exact Hrun|]. split; [simpl; by rewrite Hfin|].
  rewrite span_attribute_last_value. cbn [attributes]. rewrite Hreq. cbn [fst].
  rewrite last_value_app, (last_value_response_keys _ extra); [|by intros ?|done].
  reflexivity.
Qed.

(** C5. Flattening of the choices.  After a call that went through, with a
    response whose choices are a list of length k, the attributes under the
    choices prefix are exactly k sets of three, numbered 0 to k-1 in the
    order of the list: the set of index i holds the role and the content of
    the message and the finish reason of the i-th choice, and no index from
    k on has an attribute. *)
Theorem choices_are_flattened tracer (f : callable) instance args kwargs w
    response s' r choices :
  suppression_flag w = false →
  valid_request kwargs = true →
  f args kwargs (library w) = (Return response, s') →
  read_response response = Some r →
  getitem response "choices" = Return (VList choices) →
  ∃ sp w',
    _instrumented_create tracer (invoke f) instance args kwargs w
    = (Return response, w')
    ∧ finished w' = finished w ++ [sp]
    ∧ Forall2 (λ choice fields, choice_fields choice = Some fields)
        choices (response_choices r)
    ∧ filter (λ kv : string * pyval, choices_key kv.1) (attributes sp)
      = choices_attributes_from 0 (response_choices r)
    ∧ length (filter (λ kv : string * pyval, choices_key kv.1) (attributes sp)) = 3 * length choices
    ∧ (∀ i role content finish_reason,
         response_choices r !! i = Some (role, content, finish_reason) →
         span_attribute sp (choice_key i "message.role") = Some role
         ∧ span_attribute sp (choice_key i "message.content") = Some content
         ∧ span_attribute sp (choice_key i "finish_reason") = Some finish_reason)
    ∧ (∀ i field, length choices ≤ i →
         span_attribute sp (choice_key i field) = None).
Proof.
  intros Hflag Hvalid Hf Hr Hchoices.
  destruct (valid_request_projection kwargs Hvalid)
    as (model & messages & items & lines & _ & _ & _ & _ & Hreq).
  pose proof (read_response_choices response r choices Hr Hchoices) as Hfields.
  apply mapM_Some in Hfields. pose proof (Forall2_length _ _ _ Hfields) as Hlen.
  eexists {| span_name := "openai.chat"; span_tracer := tracer;
             attributes := complete_attributes kwargs model (messages_text lines) r |}, _.
  split.
  { eapply run_call_returns; [done..|]. by apply response_then_ok. }
  split; [done|]. split; [done|].
  cbn [attributes]. rewrite complete_attributes_choices.
  split; [done|]. split.
  { by rewrite length_choices_attributes, Hlen. }
  split.
  - intros i role content finish_reason Hi.
    rewrite !span_attribute_last_value. cbn [attributes].
    rewrite !complete_attributes_choice_key.
    apply (last_value_choices_inside i 0 _ _ _ _ Hi).
  - intros i field Hi.
    rewrite span_attribute_last_value. cbn [attributes].
    rewrite complete_attributes_choice_key.
    apply last_value_choices_outside. lia.
Qed.

(** C6. Failure of the underlying call.  When the original callable raises,
    the wrapper raises the same exception; the span is ended all the same,
    it is no longer open, and it carries no attribute under a response key. *)
Theorem callable_exception_propagates tracer (f : callable) instance args kwargs
    w e s' :
  suppression_flag w = false →
  valid_request kwargs = true →
  f args kwargs (library w) = (Raise e, s') →
  ∃ sp w',
    _instrumented_create tracer (invoke f) instance args kwargs w = (Raise e, w')
    ∧ finished w' = finished w ++ [sp]
    ∧ active w' = active w
    ∧ Forall (λ kv, ¬ response_key kv.1) (attributes sp)
    ∧ calls w' = calls w ++ [(args, kwargs)].
Proof.
  intros Hflag Hvalid Hf.
  destruct (valid_request_projection kwargs Hvalid)
    as (model & messages & items & lines & _ & _ & _ & _ & Hreq).
  eexists _, _. split; [by eapply run_call_raises|].
  repeat split; try done. apply request_keys_not_response.
Qed.

(** C7. Required request fields.  Keyword arguments without [model], or
    without [messages]: the wrapper raises the [KeyError] of the missing key.
    The world is as before but for the span that was ended: [wrapped] is not
    invoked, no call is counted and the library state is untouched. *)
Theorem missing_request_field_raises tracer wrapped instance args kwargs w :
  suppression_flag w = false →
  kwargs !! "model" = None ∨ kwargs !! "messages" = None →
  ∃ k sp w',
    _instrumented_create tracer wrapped instance args kwargs w
    = (Raise (KeyError k), w')
    ∧ (k = "model" ∨ k = "messages") ∧ kwargs !! k = None
    ∧ w' = set_finished (finished w ++ [sp]) w
    ∧ calls w' = calls w ∧ library w' = library w.
Proof.
  intros Hflag Hmissing.
  destruct (kwargs !! "model") as [model|] eqn:Hmodel.
  - destruct Hmissing as [?|Hmessages]; [done|].
    exists "messages". eexists _, _. split.
    + apply run_request_fails; [done|].
      unfold request_projection. rewrite Hmodel, Hmessages. reflexivity.
    + by repeat split; auto.
  - exists "model". eexists _, _. split.
    + apply run_request_fails; [done|].
      unfold request_projection. rewrite Hmodel. reflexivity.
    + by repeat split; auto.
Qed.

(** C8. Required response fields.  The original callable returns, but its
    response lacks a required field: the wrapper raises the [KeyError] of
    that field instead of returning the response, although the call was made
    and went through; the span is ended. *)
Theorem incomplete_response_raises tracer (f : callable) instance args kwargs
    w response s' k :
  suppression_flag w = false →
  valid_request kwargs = true →
  f args kwargs (library w) = (Return response, s') →
  response_lacks response k →
  ∃ sp w',
    _instrumented_create tracer (invoke f) instance args kwargs w
    = (Raise (KeyError k), w')
    ∧ (invoke f args kwargs w).1 = Return response
    ∧ calls w' = calls w ++ [(args, kwargs)]
    ∧ library w' = s'
    ∧ finished w' = finished w ++ [sp]
    ∧ active w' = active w.
Proof.
  intros Hflag Hvalid Hf Hlacks.
  destruct (valid_request_projection kwargs Hvalid)
    as (model & messages & items & lines & _ & _ & _ & _ & Hreq).
  destruct (response_then_lacks response k Hlacks) as [extra Hresp].
  eexists _, _. split.
  - by eapply run_call_returns.
  - rewrite invoke_run, Hf. by repeat split.
Qed.

(** C9. Instrument, then uninstrument.  The attribute holds again what it
    held before, so a call behaves as on the original: for the never
    instrumented function, the callable's own result, and no span started or
    ended, whatever the suppression flag says. *)
Theorem uninstrument_restores_original tracer (create : method) (f : callable)
    instance args kwargs w :
  _uninstrument (_instrument_chat tracer create) = create
  ∧ call (_uninstrument (_instrument_chat tracer (Original f))) instance args kwargs w
    = invoke f args kwargs w
  ∧ (call (_uninstrument (_instrument_chat tracer (Original f))) instance args kwargs w).1
    = (f args kwargs (library w)).1
  ∧ finished (call (_uninstrument (_instrument_chat tracer (Original f)))
                instance args kwargs w).2 = finished w
  ∧ active (call (_uninstrument (_instrument_chat tracer (Original f)))
                instance args kwargs w).2 = active w.
Proof.
  split; [reflexivity|]. split; [reflexivity|].
  simpl. rewrite invoke_run. by repeat split.
Qed.

(** C10. Only keyword arguments are read.  Whatever is passed positionally,
    a call without [model] among its keyword arguments raises [KeyError]
    once instrumented, before the original callable is invoked (the world is
    as before but for the span that was ended), even where the very same call
    goes through on the original. *)
Theorem positional_arguments_are_not_read tracer (f : callable) instance args
    kwargs w response s' :
  suppression_flag w = false →
  kwargs !! "model" = None →
  f args kwargs (library w) = (Return response, s') →
  (call (Original f) instance args kwargs w).1 = Return response
  ∧ ∃ sp w',
      call (_instrument_chat tracer (Original f)) instance args kwargs w
      = (Raise (KeyError "model"), w')
      ∧ w' = set_finished (finished w ++ [sp]) w
      ∧ calls w' = calls w ∧ library w' = library w.
Proof.
  intros Hflag Hmodel Hf. split.
  - simpl. by rewrite invoke_run, Hf.
  - eexists _, _. split.
    + simpl. apply run_request_fails; [done|].
      unfold request_projection. rewrite Hmodel. reflexivity.
    + done.
Qed.

(** ** Faults, outcomes and nesting *)

(** *** The exceptions of the wrapper's own lookups *)

Lemma getitem_not_mapping v k :
  (∀ d : pydict, v ≠ VDict d) → getitem v k = Raise TypeError.
Proof. intros H. destruct v as [| | | | | |d]; try reflexivity. by destruct (H d). Qed.

Lemma getitem_error v k e : getitem v k = Raise e → lookup_error e.
Proof.
  destruct v as [| | | | | |d]; simpl; try (intros [= <-]; exact I).
  unfold dict_getitem. destruct (d !! k); intros [= <-]. exact I.
Qed.

Lemma iterate_error v e : iterate v = Raise e → e = TypeError.
Proof. destruct v; simpl; intros [= <-]; reflexivity. Qed.

Lemma message_step_error acc m e : message_step acc m = Raise e → lookup_error e.
Proof.
  unfold message_step.
  destruct (getitem m "role") as [role|e1] eqn:Hrole; simpl.
  - destruct (getitem m "content") as [content|e2] eqn:Hcontent; simpl; [done|].
    intros [= <-]. by eapply getitem_error.
  - intros [= <-]. by eapply getitem_error.
Qed.

Lemma for_fold_messages_error items acc e :
  for_fold message_step items acc = Raise e → lookup_error e.
Proof.
  revert acc. induction items as [|m items IH]; intros acc; cbn [for_fold]; [done|].
  destruct (message_step acc m) as [acc'|e'] eqn:Hstep; simpl.
  - apply IH.
  - intros [= <-]. by eapply message_step_error.
Qed.

(** A request-side projection that stops: the exception is a lookup error,
    and what was recorded is nothing, or the model and the optional fields. *)
Lemma request_projection_fails kwargs attrs e :
  request_projection kwargs = (attrs, Some e) →
  lookup_error e ∧
  match kwargs !! "model" with
  | None => e = KeyError "model" ∧ attrs = []
  | Some model => attrs = (attribute_key "model", model) :: optional_attributes kwargs
  end.
Proof.
  unfold request_projection.
  destruct (kwargs !! "model") as [model|]; [|by intros [= <- <-]].
  destruct (kwargs !! "messages") as [messages|]; [|by intros [= <- <-]].
  destruct (iterate messages) as [items|e'] eqn:Hitems; cbn [mbind outcome_bind].
  - destruct (flatten_messages items) as [text|e'] eqn:Htext; [done|].
    intros [= <- <-]. split; [|done]. by eapply for_fold_messages_error.
  - intros [= <- <-]. split; [|done]. by rewrite (iterate_error _ _ Hitems).
Qed.

Lemma message_step_fault acc m e : message_fault m e → message_step acc m = Raise e.
Proof.
  intros [m' Hm | d Hrole | d [role Hrole] Hcontent]; unfold message_step.
  - by rewrite (getitem_not_mapping m' "role" Hm).
  - cbn [getitem]. by rewrite (dict_getitem_None _ _ Hrole).
  - cbn [getitem].
    by rewrite (dict_getitem_Some _ _ _ Hrole), (dict_getitem_None _ _ Hcontent).
Qed.

Lemma message_step_ok acc m :
  is_message m = true → ∃ acc', message_step acc m = Return acc'.
Proof.
  destruct m as [| | | | | |d]; try done.
  unfold is_message, contains, message_step. cbn [getitem]. unfold dict_getitem.
  destruct (d !! "role"); [|done]. destruct (d !! "content"); [|done].
  intros _. by eexists.
Qed.

(** The loop over the messages stops at the first item that is not one. *)
Lemma flatten_messages_fault before m after e :
  Forall (λ x, is_message x = true) before → message_fault m e →
  flatten_messages (before ++ m :: after) = Raise e.
Proof.
  intros Hbefore Hm. unfold flatten_messages. generalize ("" : string) as acc.
  induction Hbefore as [|x before Hx _ IH]; intros acc; cbn [app for_fold].
  - by rewrite (message_step_fault acc m e Hm).
  - destruct (message_step_ok acc x Hx) as [acc' ->]. apply IH.
Qed.

Lemma unusable_messages_fail messages :
  unusable_messages messages = true →
  (items ← iterate messages; flatten_messages items) = Raise TypeError.
Proof.
  intros Hm.
  destruct messages as [| | | |[|c s]|l|d]; simpl in Hm;
    try discriminate; try reflexivity.
  apply negb_true_iff, bool_decide_eq_false in Hm.
  cbn [iterate mbind outcome_bind].
  destruct (map_to_list d) as [|[k v] kvs] eqn:Hkvs.
  - by apply map_to_list_empty_iff in Hkvs.
  - reflexivity.
Qed.

(** *** The response side, whatever the response *)

Lemma choice_body_fails index choice :
  choice_fields choice = None →
  ∃ e attrs, lookup_error e
    ∧ ∀ w, choice_body (index, choice) w = (Raise e, record_attributes attrs w).
Proof.
  intros H.
  destruct choice as [| | | | | |c];
    try (exists TypeError, []; split; [exact I|];
         intros w; by rewrite record_attributes_nil).
  simpl in H.
  destruct (c !! "message") as [message|] eqn:Hmessage.
  2:{ exists (KeyError "message"), []. split; [exact I|]. intros w.
      unfold choice_body; cbv zeta; steps. by rewrite record_attributes_nil. }
  destruct message as [| | | | | |m];
    try (exists TypeError, []; split; [exact I|]; intros w;
         unfold choice_body; cbv zeta; steps; by rewrite record_attributes_nil).
  destruct (m !! "role") as [role|] eqn:Hrole.
  2:{ exists (KeyError "role"), []. split; [exact I|]. intros w.
      unfold choice_body; cbv zeta; steps. by rewrite record_attributes_nil. }
  destruct (m !! "content") as [content|] eqn:Hcontent.
  2:{ eexists (KeyError "content"), _. split; [exact I|]. intros w.
      unfold choice_body; cbv zeta; steps. reflexivity. }
  destruct (c !! "finish_reason") as [finish_reason|] eqn:Hfinish;
    [by simpl in H|].
  eexists (KeyError "finish_reason"), _. split; [exact I|]. intros w.
  unfold choice_body; cbv zeta; steps. reflexivity.
Qed.

Lemma for_each_choices_fails items :
  mapM choice_fields items = None →
  ∀ start, ∃ e attrs, lookup_error e
    ∧ ∀ w, for_each choice_body (enumerate_from start items) w
           = (Raise e, record_attributes attrs w).
Proof.
  induction items as [|choice items IH]; intros H start; [done|].
  simpl in H. simpl.
  destruct (choice_fields choice) as [fields|] eqn:Hfields.
  - destruct (mapM choice_fields items) as [rest|] eqn:Hrest; [by simpl in H|].
    destruct (IH eq_refl (S start)) as (e & attrs & He & Hloop).
    exists e, (choice_attributes start fields ++ attrs). split; [done|]. intros w.
    rewrite (bind_run_return _ _ _ _ _ (choice_body_ok start choice fields w Hfields)).
    by rewrite Hloop, record_attributes_app.
  - destruct (choice_body_fails start choice Hfields) as (e & attrs & He & Hbody).
    exists e, attrs. split; [done|]. intros w.
    by rewrite (bind_run_raise _ _ _ _ _ (Hbody w)).
Qed.

Ltac response_raises Hitems Hfields :=
  intros ?; unfold response_then; cbv zeta; steps; rewrite Hitems; steps;
  rewrite (bind_run_return _ _ _ _ _ (for_each_choices_ok _ _ Hfields 0 _));
  unfold usage_then; cbv zeta; steps; reflexivity.

(** A response that [read_response] cannot read: the projection raises, and
    what it raises is a lookup error. *)
Lemma response_then_incomplete response :
  read_response response = None →
  ∃ e attrs, lookup_error e
    ∧ ∀ w, response_then response w = (Raise e, record_attributes attrs w).
Proof.
  intros H.
  destruct response as [| | | | | |d];
    try (exists TypeError, []; split; [exact I|];
         intros w; by rewrite record_attributes_nil).
  simpl in H.
  destruct (d !! "id") as [id|] eqn:Hid.
  2:{ exists (KeyError "id"), []. split; [exact I|]. intros w.
      unfold response_then; cbv zeta; steps. by rewrite record_attributes_nil. }
  destruct (d !! "object") as [object|] eqn:Hobject.
  2:{ eexists (KeyError "object"), _. split; [exact I|]. intros w.
      unfold response_then; cbv zeta; steps. reflexivity. }
  destruct (d !! "created") as [created|] eqn:Hcreated.
  2:{ eexists (KeyError "created"), _. split; [exact I|]. intros w.
      unfold response_then; cbv zeta; steps. reflexivity. }
  destruct (d !! "choices") as [choices|] eqn:Hchoices.
  2:{ eexists (KeyError "choices"), _. split; [exact I|]. intros w.
      unfold response_then; cbv zeta; steps. reflexivity. }
  simpl in H.
  destruct (iterate choices) as [items|e] eqn:Hitems.
  2:{ eexists e, _. split; [by rewrite (iterate_error _ _ Hitems)|]. intros w.
      unfold response_then; cbv zeta; steps. rewrite Hitems. steps. reflexivity. }
  destruct (mapM choice_fields items) as [fields|] eqn:Hfields.
  2:{ destruct (for_each_choices_fails items Hfields 0) as (e & attrs & He & Hloop).
      eexists e, _. split; [done|]. intros w.
      unfold response_then; cbv zeta; steps. rewrite Hitems. steps.
      unfold enumerate. rewrite (bind_run_raise _ _ _ _ _ (Hloop _)). steps.
      reflexivity. }
  simpl in H.
  destruct (d !! "usage") as [usage|] eqn:Husage.
  2:{ eexists (KeyError "usage"), _. split; [exact I|].
      response_raises Hitems Hfields. }
  destruct usage as [| | | | | |u];
    try (eexists TypeError, _; split; [exact I|]; response_raises Hitems Hfields).
  destruct (u !! "prompt_tokens") as [prompt|] eqn:Hprompt.
  2:{ eexists (KeyError "prompt_tokens"), _. split; [exact I|].
      response_raises Hitems Hfields. }
  destruct (u !! "completion_tokens") as [completion|] eqn:Hcompletion.
  2:{ eexists (KeyError "completion_tokens"), _. split; [exact I|].
      response_raises Hitems Hfields. }
  destruct (u !! "total_tokens") as [total|] eqn:Htotal; [by simpl in H|].
  eexists (KeyError "total_tokens"), _. split; [exact I|].
  response_raises Hitems Hfields.
Qed.

(** What the projection of a response ends with: the response itself, when it
    can be read, and a lookup error when it cannot. *)
Lemma response_then_result response w o w' :
  response_then response w = (o, w') →
  match o with
  | Return v => v = response ∧ is_Some (read_response response)
  | Raise e => lookup_error e ∧ read_response response = None
  end.
Proof.
  destruct (read_response response) as [r|] eqn:Hr.
  - rewrite (response_then_ok response r Hr). intros [= <- _].
    split; [done|by eexists].
  - destruct (response_then_incomplete response Hr) as (e & attrs & He & Hfail).
    rewrite Hfail. by intros [= <- _].
Qed.

(** *** The three ways of an invocation that is not suppressed *)

Lemma run_cases tracer (f : callable) instance args kwargs w :
  suppression_flag w = false →
  (∃ attrs e, request_projection kwargs = (attrs, Some e)
     ∧ _instrumented_create tracer (invoke f) instance args kwargs w
       = (Raise e, finish_span tracer attrs w))
  ∨ (∃ attrs e s', request_projection kwargs = (attrs, None)
     ∧ f args kwargs (library w) = (Raise e, s')
     ∧ _instrumented_create tracer (invoke f) instance args kwargs w
       = (Raise e, finish_span tracer attrs (count_call args kwargs s' w)))
  ∨ (∃ attrs response s' extra o, request_projection kwargs = (attrs, None)
     ∧ f args kwargs (library w) = (Return response, s')
     ∧ (∀ w0, response_then response w0 = (o, record_attributes extra w0))
     ∧ Forall (λ kv, response_key kv.1) extra
     ∧ _instrumented_create tracer (invoke f) instance args kwargs w
       = (o, finish_span tracer (attrs ++ extra) (count_call args kwargs s' w))).
Proof.
  intros Hflag. destruct (request_projection kwargs) as [attrs [e|]] eqn:Hreq.
  - left. exists attrs, e. split; [done|]. by apply run_request_fails.
  - destruct (f args kwargs (library w)) as [[response|e] s'] eqn:Hf.
    + right; right.
      destruct (projects_response_then response) as (extra & o & Hresp & Hkeys).
      exists attrs, response, s', extra, o.
      split; [done|]. split; [done|]. split; [done|]. split; [done|].
      by eapply run_call_returns.
    + right; left. exists attrs, e, s'.
      split; [done|]. split; [done|]. by apply run_call_raises.
Qed.

(** X1. One span per invocation.  Every invocation that is not suppressed,
    however it ends, hands over exactly one span, named [openai.chat] and
    started by the tracer of the wrapper; the stack of open spans and the
    context are as before, and the original callable was invoked at most
    once. *)
Theorem every_call_ends_one_span tracer (f : callable) instance args kwargs w :
  suppression_flag w = false →
  ∃ o sp w',
    _instrumented_create tracer (invoke f) instance args kwargs w = (o, w')
    ∧ finished w' = finished w ++ [sp]
    ∧ span_name sp = "openai.chat" ∧ span_tracer sp = tracer
    ∧ active w' = active w ∧ context w' = context w
    ∧ (calls w' = calls w ∧ library w' = library w
       ∨ calls w' = calls w ++ [(args, kwargs)]
         ∧ library w' = (f args kwargs (library w)).2).
Proof.
  intros Hflag.
  destruct (run_cases tracer f instance args kwargs w Hflag)
    as [(attrs & e & _ & Hrun)
       |[(attrs & e & s' & _ & Hf & Hrun)
        |(attrs & response & s' & extra & o & _ & Hf & _ & _ & Hrun)]];
    rewrite Hrun; eexists _, _, _; (split; [reflexivity|]);
    (split; [reflexivity|]); (split; [reflexivity|]); (split; [reflexivity|]);
    (split; [reflexivity|]); (split; [reflexivity|]).
  - by left.
  - right. by rewrite Hf.
  - right. by rewrite Hf.
Qed.

(** X2. The model is recorded as it is.  For every invocation that is not
    suppressed and has [model] among its keyword arguments, the span ends
    with the model attribute set to the value passed, whatever happens
    afterwards. *)
Theorem model_is_recorded tracer (f : callable) instance args kwargs w model :
  suppression_flag w = false →
  kwargs !! "model" = Some model →
  ∃ o sp w',
    _instrumented_create tracer (invoke f) instance args kwargs w = (o, w')
    ∧ finished w' = finished w ++ [sp]
    ∧ span_attribute sp "openai.chat.model" = Some model.
Proof.
  intros Hflag Hmodel.
  destruct (run_attributes tracer f instance args kwargs w Hflag)
    as (o & extra & w0 & Hrun & Hextra & Hfin & _).
  destruct (request_projection_with_model kwargs model Hmodel)
    as (tail & Hreq & Htail).
  eexists o, _, _. split; [exact Hrun|]. split; [simpl; by rewrite Hfin|].
  rewrite span_attribute_last_value. cbn [attributes]. rewrite Hreq.
  rewrite !last_value_app.
  rewrite (last_value_response_keys _ extra); [|by intros ?|done].
  rewrite (last_value_None _ tail).
  2:{ eapply Forall_impl; [exact Htail|].
      intros [k' v] Heq ?; simpl in *; by subst. }
  reflexivity.
Qed.

(** X3. An invalid request is not forwarded.  Keyword arguments that are not
    a valid request make the wrapper raise a [KeyError] or a [TypeError],
    whatever [wrapped] is: it is not invoked, and the world is as before but
    for the span that was ended.  That span is empty when [model] is
    missing, and holds the model and the ten optional fields, without a
    messages attribute, otherwise. *)
Theorem invalid_request_is_not_forwarded tracer wrapped instance args kwargs w :
  suppression_flag w = false →
  valid_request kwargs = false →
  ∃ e attrs,
    _instrumented_create tracer wrapped instance args kwargs w
    = (Raise e, set_finished (finished w ++ [ended_span tracer attrs]) w)
    ∧ lookup_error e
    ∧ match kwargs !! "model" with
      | None => e = KeyError "model" ∧ attrs = []
      | Some model =>
          attrs = (attribute_key "model", model) :: optional_attributes kwargs
      end.
Proof.
  intros Hflag Hinvalid.
  destruct (request_projection kwargs) as [attrs [e|]] eqn:Hreq.
  - exists e, attrs. split.
    + by rewrite (run_request_fails tracer wrapped instance args kwargs w attrs e).
    + by apply request_projection_fails.
  - assert (valid_request kwargs = true) as Hvalid
      by (apply valid_request_iff; by rewrite Hreq).
    by rewrite Hvalid in Hinvalid.
Qed.

(** X4. A faulty message.  When [messages] is a list whose first item that
    is not a message is [m] (an object with a role and a content), the
    wrapper raises before the call: [TypeError] when [m] is not a mapping,
    [KeyError] of [role] when it has no role, [KeyError] of [content] when it
    has a role but no content.  The span that is ended holds the model and
    the optional fields. *)
Theorem faulty_message_raises tracer wrapped instance args kwargs w model
    before m after e :
  suppression_flag w = false →
  kwargs !! "model" = Some model →
  kwargs !! "messages" = Some (VList (before ++ m :: after)) →
  Forall (λ x, is_message x = true) before →
  message_fault m e →
  _instrumented_create tracer wrapped instance args kwargs w
  = (Raise e,
     set_finished
       (finished w ++ [ended_span tracer
          ((attribute_key "model", model) :: optional_attributes kwargs)]) w).
Proof.
  intros Hflag Hmodel Hmessages Hbefore Hm.
  rewrite (run_request_fails tracer wrapped instance args kwargs w
             ((attribute_key "model", model) :: optional_attributes kwargs) e);
    [reflexivity|done|].
  unfold request_projection. rewrite Hmodel, Hmessages.
  cbn [iterate mbind outcome_bind].
  by rewrite (flatten_messages_fault before m after e Hbefore Hm).
Qed.

(** X5. Messages that are no sequence of objects.  When [messages] cannot be
    iterated (None, a number, a boolean), or is a string that has characters
    or a dictionary that has keys (the loop then draws strings, which have no
    role), the wrapper raises [TypeError] before the call. *)
Theorem unusable_messages_raise_type_error tracer wrapped instance args kwargs
    w model messages :
  suppression_flag w = false →
  kwargs !! "model" = Some model →
  kwargs !! "messages" = Some messages →
  unusable_messages messages = true →
  _instrumented_create tracer wrapped instance args kwargs w
  = (Raise TypeError,
     set_finished
       (finished w ++ [ended_span tracer
          ((attribute_key "model", model) :: optional_attributes kwargs)]) w).
Proof.
  intros Hflag Hmodel Hmessages Hm.
  rewrite (run_request_fails tracer wrapped instance args kwargs w
             ((attribute_key "model", model) :: optional_attributes kwargs)
             TypeError);
    [reflexivity|done|].
  unfold request_projection. rewrite Hmodel, Hmessages.
  by rewrite (unusable_messages_fail messages Hm).
Qed.

(** X6. Empty messages.  An empty list, an empty string and an empty
    dictionary all pass for [messages]: the loop has nothing to draw, the
    messages attribute is the empty string, and the original callable is
    invoked. *)
Theorem empty_messages_go_through tracer (f : callable) instance args kwargs w
    model messages :
  suppression_flag w = false →
  kwargs !! "model" = Some model →
  kwargs !! "messages" = Some messages →
  messages = VList [] ∨ messages = VStr "" ∨ messages = VDict ∅ →
  ∃ o sp w',
    _instrumented_create tracer (invoke f) instance args kwargs w = (o, w')
    ∧ finished w' = finished w ++ [sp]
    ∧ span_attribute sp "openai.chat.messages" = Some (VStr "")
    ∧ calls w' = calls w ++ [(args, kwargs)].
Proof.
  intros Hflag Hmodel Hmessages Hempty.
  assert (request_projection kwargs = (request_attributes kwargs model "", None))
    as Hreq.
  { unfold request_projection. rewrite Hmodel, Hmessages.
    by destruct Hempty as [->|[->| ->]]. }
  destruct (run_cases tracer f instance args kwargs w Hflag)
    as [(attrs & e & Hreq' & _)
       |[(attrs & e & s' & Hreq' & Hf & Hrun)
        |(attrs & response & s' & extra & o & Hreq' & Hf & Hresp & Hkeys & Hrun)]];
    rewrite Hreq in Hreq'; [discriminate|injection Hreq' as <-..].
  - eexists _, _, _. split; [exact Hrun|]. split; [reflexivity|].
    split; [|reflexivity]. rewrite span_attribute_last_value. reflexivity.
  - eexists _, _, _. split; [exact Hrun|]. split; [reflexivity|].
    split; [|reflexivity]. rewrite span_attribute_last_value. cbn [attributes].
    rewrite last_value_app, (last_value_response_keys _ extra); [|by intros ?|done].
    reflexivity.
Qed.

(** X7. Roles and contents that are not strings.  With [messages] a list of
    objects that have a role and a content of whatever type, the messages
    attribute is the lines ["role: content"] with each value formatted as an
    f-string formats it: a string as it is, anything else through [str]. *)
Theorem messages_are_formatted tracer (f : callable) instance args kwargs w
    model items (fields : list (pyval * pyval)) :
  suppression_flag w = false →
  kwargs !! "model" = Some model →
  kwargs !! "messages" = Some (VList items) →
  Forall2 (λ m rc, ∃ d : pydict, m = VDict d
             ∧ d !! "role" = Some rc.1 ∧ d !! "content" = Some rc.2)
    items fields →
  ∃ o sp w',
    _instrumented_create tracer (invoke f) instance args kwargs w = (o, w')
    ∧ finished w' = finished w ++ [sp]
    ∧ span_attribute sp "openai.chat.messages"
      = Some (VStr (messages_text
          ((λ rc : pyval * pyval, (format_value rc.1, format_value rc.2))
             <$> fields))).
Proof.
  intros Hflag Hmodel Hmessages Hfields.
  assert (mapM message_fields items
          = Some ((λ rc : pyval * pyval, (format_value rc.1, format_value rc.2))
                    <$> fields)) as Hlines.
  { apply mapM_Some, Forall2_fmap_r. eapply Forall2_impl; [exact Hfields|].
    intros m [role content] (d & -> & Hrole & Hcontent). simpl in *.
    by rewrite Hrole, Hcontent. }
  destruct (run_attributes tracer f instance args kwargs w Hflag)
    as (o & extra & w0 & Hrun & Hextra & Hfin & _).
  assert (request_projection kwargs
          = (request_attributes kwargs model
               (messages_text
                  ((λ rc : pyval * pyval, (format_value rc.1, format_value rc.2))
                     <$> fields)), None)) as Hreq.
  { unfold request_projection. rewrite Hmodel, Hmessages.
    cbn [iterate mbind outcome_bind].
    by rewrite (flatten_messages_ok _ _ Hlines). }
  eexists o, _, _. split; [exact Hrun|]. split; [simpl; by rewrite Hfin|].
  rewrite span_attribute_last_value. cbn [attributes]. rewrite Hreq. cbn [fst].
  rewrite last_value_app, (last_value_response_keys _ extra); [|by intros ?|done].
  reflexivity.
Qed.

(** *** The text of the messages, by parts *)

Lemma for_fold_app {A B} (body : B → A → outcome B) l1 l2 acc :
  for_fold body (l1 ++ l2) acc = (acc' ← for_fold body l1 acc; for_fold body l2 acc').
Proof.
  revert acc. induction l1 as [|x l1 IH]; intros acc; cbn [app for_fold]; [done|].
  destruct (body acc x) as [acc'|e]; cbn [mbind outcome_bind]; [apply IH|done].
Qed.

Lemma message_step_acc acc m :
  message_step acc m
  = match message_step "" m with
    | Return line => Return (acc +:+ line)
    | Raise e => Raise e
    end.
Proof.
  unfold message_step.
  destruct (getitem m "role") as [role|e]; [|done].
  by destruct (getitem m "content") as [content|e].
Qed.

Lemma for_fold_messages_acc items acc :
  for_fold message_step items acc
  = match for_fold message_step items "" with
    | Return text => Return (acc +:+ text)
    | Raise e => Raise e
    end.
Proof.
  revert acc. induction items as [|m items IH]; intros acc; cbn [for_fold].
  - cbn [mret outcome_ret]. by rewrite string_app_nil_r.
  - rewrite (message_step_acc acc m).
    destruct (message_step "" m) as [line|e]; cbn [mbind outcome_bind]; [|done].
    rewrite (IH (acc +:+ line)), (IH line).
    destruct (for_fold message_step items "") as [text|e]; [|done].
    by rewrite string_app_assoc.
Qed.

(** X8. The text of the messages composes.  The text built from a
    concatenation of two lists of messages is the text of the first followed
    by the text of the second; when one of them stops at a faulty message,
    the whole stops there, the first list going first. *)
Theorem flatten_messages_app a b :
  flatten_messages (a ++ b)
  = (ta ← flatten_messages a; tb ← flatten_messages b; mret (ta +:+ tb)).
Proof.
  unfold flatten_messages. rewrite for_fold_app.
  destruct (for_fold message_step a "") as [ta|e]; cbn [mbind outcome_bind]; [|done].
  rewrite (for_fold_messages_acc b ta).
  by destruct (for_fold message_step b "").
Qed.

(** X9. A response that is not a mapping.  When the original callable
    returns something that is not a dictionary (None, a list, a string),
    the first subscript of the response raises [TypeError]: the caller gets
    the exception instead of the value, although the call was made; the span
    that is ended holds the twelve attributes of the request and nothing of
    the response. *)
Theorem response_not_a_mapping_raises tracer (f : callable) instance args kwargs
    w response s' :
  suppression_flag w = false →
  valid_request kwargs = true →
  f args kwargs (library w) = (Return response, s') →
  (∀ d : pydict, response ≠ VDict d) →
  ∃ model text,
    kwargs !! "model" = Some model
    ∧ _instrumented_create tracer (invoke f) instance args kwargs w
      = (Raise TypeError,
         set_finished
           (finished w ++ [ended_span tracer (request_attributes kwargs model text)])
           (invoke f args kwargs w).2)
    ∧ length (request_attributes kwargs model text) = 12.
Proof.
  intros Hflag Hvalid Hf Hnot.
  destruct (valid_request_projection kwargs Hvalid)
    as (model & messages & items & lines & Hmodel & _ & _ & _ & Hreq).
  exists model, (messages_text lines). split; [done|]. split; [|reflexivity].
  rewrite (run_call_returns tracer f instance args kwargs w _ response s' []
             (Raise TypeError) Hflag Hreq Hf).
  - rewrite app_nil_r, invoke_run, Hf. reflexivity.
  - intros w0. rewrite record_attributes_nil. unfold response_then; cbv zeta.
    by rewrite (getitem_not_mapping response "id" Hnot).
Qed.

(** X10. When the caller gets a value.  An invocation that is not suppressed
    returns [v] exactly when the keyword arguments are a valid request, the
    original callable returns [v], and [v] has every field the response side
    reads. *)
Theorem call_returns_iff tracer (f : callable) instance args kwargs w v :
  suppression_flag w = false →
  (_instrumented_create tracer (invoke f) instance args kwargs w).1 = Return v
  ↔ valid_request kwargs = true
    ∧ (f args kwargs (library w)).1 = Return v
    ∧ is_Some (read_response v).
Proof.
  intros Hflag.
  destruct (run_cases tracer f instance args kwargs w Hflag)
    as [(attrs & e & Hreq & Hrun)
       |[(attrs & e & s' & Hreq & Hf & Hrun)
        |(attrs & response & s' & extra & o & Hreq & Hf & Hresp & _ & Hrun)]];
    rewrite Hrun; cbn [fst].
  - split; [done|]. intros (Hvalid & _).
    apply valid_request_iff in Hvalid. rewrite Hreq in Hvalid. done.
  - rewrite Hf. cbn [fst]. split; [done|]. by intros (_ & ? & _).
  - rewrite Hf. cbn [fst].
    assert (valid_request kwargs = true) as Hvalid
      by (apply valid_request_iff; by rewrite Hreq).
    pose proof (response_then_result response w _ _ (Hresp w)) as Hresult.
    destruct o as [v'|e].
    + destruct Hresult as [-> Hr]. split.
      * by intros [= <-].
      * by intros (_ & [= <-] & _).
    + destruct Hresult as [_ Hr]. split; [done|].
      intros (_ & [= <-] & [r Hr']). by rewrite Hr in Hr'.
Qed.

(** X11. Where an outcome comes from.  The wrapper makes up no value and no
    library error: a value it returns is [None] under suppression and the
    value the original callable returned otherwise; an exception it raises
    is one of its own lookup errors ([KeyError], [TypeError]) or the very
    exception the original callable raised. *)
Theorem outcome_provenance tracer (f : callable) instance args kwargs w :
  match (_instrumented_create tracer (invoke f) instance args kwargs w).1 with
  | Return v =>
      suppression_flag w = true ∧ v = VNone
      ∨ suppression_flag w = false ∧ (f args kwargs (library w)).1 = Return v
  | Raise e =>
      suppression_flag w = false
      ∧ (lookup_error e ∨ (f args kwargs (library w)).1 = Raise e)
  end.
Proof.
  destruct (suppression_flag w) eqn:Hflag.
  - rewrite instrumented_create_blocks.
    rewrite (bind_run_return (get_value _SUPPRESS_INSTRUMENTATION_KEY) _
      (default VNone (context w !! _SUPPRESS_INSTRUMENTATION_KEY)) w w eq_refl).
    unfold suppression_flag in Hflag. rewrite Hflag. by left.
  - destruct (run_cases tracer f instance args kwargs w Hflag)
      as [(attrs & e & Hreq & Hrun)
         |[(attrs & e & s' & Hreq & Hf & Hrun)
          |(attrs & response & s' & extra & o & Hreq & Hf & Hresp & _ & Hrun)]];
      rewrite Hrun; cbn [fst].
    + split; [done|]. left. by apply (request_projection_fails kwargs attrs e).
    + split; [done|]. right. by rewrite Hf.
    + pose proof (response_then_result response w _ _ (Hresp w)) as Hresult.
      destruct o as [v'|e].
      * destruct Hresult as [-> _]. right. by rewrite Hf.
      * destruct Hresult as [He _]. split; [done|]. by left.
Qed.

(** X12. The span of a call that failed.  When the original callable raises
    on a valid request, the span that is ended holds the twelve attributes of
    the request, the model first and the messages last, and the world is the
    one the direct call leaves, with this span handed over. *)
Theorem failed_call_span_has_the_request tracer (f : callable) instance args
    kwargs w e s' :
  suppression_flag w = false →
  valid_request kwargs = true →
  f args kwargs (library w) = (Raise e, s') →
  ∃ model text,
    kwargs !! "model" = Some model
    ∧ _instrumented_create tracer (invoke f) instance args kwargs w
      = (Raise e,
         set_finished
           (finished w ++ [ended_span tracer (request_attributes kwargs model text)])
           (invoke f args kwargs w).2)
    ∧ length (request_attributes kwargs model text) = 12
    ∧ head (request_attributes kwargs model text) = Some ("openai.chat.model", model)
    ∧ last (request_attributes kwargs model text)
      = Some ("openai.chat.messages", VStr text).
Proof.
  intros Hflag Hvalid Hf.
  destruct (valid_request_projection kwargs Hvalid)
    as (model & messages & items & lines & Hmodel & _ & _ & _ & Hreq).
  exists model, (messages_text lines). split; [done|].
  split; [|by repeat split].
  rewrite (run_call_raises tracer f instance args kwargs w _ e s' Hflag Hreq Hf).
  rewrite invoke_run, Hf. reflexivity.
Qed.

(** *** The keys of a complete span *)

Lemma choices_attributes_keys start fields :
  Forall (λ kv : string * pyval, ∃ i field, start ≤ i ∧ kv.1 = choice_key i field)
    (choices_attributes_from start fields).
Proof.
  revert start.
  induction fields as [|[[role content] finish_reason] fields IH]; intros start;
    [constructor|].
  cbn [choices_attributes_from choice_attributes app].
  repeat (constructor; [eexists start, _; split; [lia|reflexivity]|]).
  eapply Forall_impl; [apply (IH (S start))|].
  intros kv (i & field & Hi & Hkv). exists i, field. split; [lia|done].
Qed.

Lemma last_value_choices_other k start fields :
  ¬ choices_key k → last_value k (choices_attributes_from start fields) = None.
Proof.
  intros Hk. apply last_value_None.
  eapply Forall_impl; [apply choices_attributes_keys|].
  intros [k' v] (i & field & _ & Heq) Hk'. cbn [fst] in *. subst.
  apply Hk, choice_key_is_choices_key.
Qed.

Lemma NoDup_choices_keys start fields :
  NoDup (choices_attributes_from start fields).*1.
Proof.
  revert start.
  induction fields as [|[[role content] finish_reason] fields IH]; intros start;
    [constructor|].
  assert (∀ field, choice_key start field
                   ∉ (choices_attributes_from (S start) fields).*1) as Hfresh.
  { intros field Hin. apply list_elem_of_fmap in Hin as (kv & Hkv & Hin).
    pose proof (choices_attributes_keys (S start) fields) as Hkeys.
    rewrite Forall_forall in Hkeys.
    destruct (Hkeys kv Hin) as (i & field' & Hi & Heq).
    rewrite Heq in Hkv. apply choice_key_inj in Hkv as [-> _]. lia. }
  change (NoDup (choice_key start "message.role"
                 :: choice_key start "message.content"
                 :: choice_key start "finish_reason"
                 :: (choices_attributes_from (S start) fields).*1)).
  repeat (apply NoDup_cons_2;
          [repeat (apply not_elem_of_cons; split;
                   [intros Heq; by apply choice_key_inj in Heq as [_ [=]]|]);
           apply Hfresh|]).
  apply IH.
Qed.

Lemma NoDup_app_keys (P : string → Prop) (l1 l2 : list (string * pyval)) :
  Forall (λ kv, ¬ P kv.1) l1 → Forall (λ kv, P kv.1) l2 →
  NoDup l1.*1 → NoDup l2.*1 → NoDup (l1 ++ l2).*1.
Proof.
  intros H1 H2 N1 N2. rewrite fmap_app. apply NoDup_app.
  split; [done|]. split; [|done].
  intros k Hk1 Hk2.
  apply list_elem_of_fmap in Hk1 as (kv1 & -> & Hin1).
  apply list_elem_of_fmap in Hk2 as (kv2 & Heq & Hin2).
  rewrite Forall_forall in H1. rewrite Forall_forall in H2.
  apply (H1 kv1 Hin1). rewrite Heq. by apply H2.
Qed.

Ltac closed_NoDup :=
  vm_compute;
  repeat (apply NoDup_cons_2;
          [repeat (apply not_elem_of_cons; split; [intros ?; discriminate|]);
           apply not_elem_of_nil|]);
  apply NoDup_nil_2.

Lemma response_attributes_keys r :
  Forall (λ kv : string * pyval, response_key kv.1) (response_attributes r).
Proof.
  unfold response_attributes. rewrite !Forall_app. split; [|split].
  - by repeat constructor.
  - eapply Forall_impl; [apply (choices_attributes_keys 0)|].
    intros [k v] (i & field & _ & Heq). cbn [fst] in *. subst. reflexivity.
  - by repeat constructor.
Qed.

Lemma NoDup_response_keys r : NoDup (response_attributes r).*1.
Proof.
  unfold response_attributes.
  apply (NoDup_app_keys
           (λ k, starts_with "openai.chat.response.choices." k = true
                 ∨ starts_with "openai.chat.response.usage." k = true)).
  - repeat constructor; by intros [?|?].
  - apply Forall_app. split.
    + eapply Forall_impl; [apply (choices_attributes_keys 0)|].
      intros [k v] (i & field & _ & Heq). cbn [fst] in *. subst. by left.
    + repeat constructor; by right.
  - closed_NoDup.
  - apply (NoDup_app_keys (λ k, ¬ choices_key k)).
    + eapply Forall_impl; [apply (choices_attributes_keys 0)|].
      intros [k v] (i & field & _ & Heq) Hk. cbn [fst] in *. subst.
      apply Hk, choice_key_is_choices_key.
    + repeat constructor; by intros ?.
    + apply NoDup_choices_keys.
    + closed_NoDup.
Qed.

Lemma NoDup_complete_attributes kwargs model text r :
  NoDup (complete_attributes kwargs model text r).*1.
Proof.
  unfold complete_attributes. apply (NoDup_app_keys response_key).
  - apply request_keys_not_response.
  - apply response_attributes_keys.
  - closed_NoDup.
  - apply NoDup_response_keys.
Qed.

Lemma length_complete_attributes kwargs model text r :
  length (complete_attributes kwargs model text r)
  = 18 + 3 * length (response_choices r).
Proof.
  unfold complete_attributes, response_attributes.
  rewrite !length_app, length_choices_attributes.
  change (length (request_attributes kwargs model text)) with 12.
  cbn [length]. lia.
Qed.

Lemma span_attribute_elem_of sp k v :
  NoDup (attributes sp).*1 → (k, v) ∈ attributes sp → span_attribute sp k = Some v.
Proof.
  intros Hnodup Hin. unfold span_attribute, attribute_map.
  apply elem_of_list_to_map_1.
  - by rewrite fmap_reverse, reverse_Permutation.
  - by apply elem_of_reverse.
Qed.

(** X13. No attribute is set twice.  After a call that went through, with a
    response whose choices are a list of length k, the span holds 18 + 3k
    attributes under pairwise different keys, so that every value that was
    set is the value read back under its key. *)
Theorem complete_span_keys_are_distinct tracer (f : callable) instance args
    kwargs w response s' choices :
  suppression_flag w = false →
  valid_request kwargs = true →
  f args kwargs (library w) = (Return response, s') →
  is_Some (read_response response) →
  getitem response "choices" = Return (VList choices) →
  ∃ sp w',
    _instrumented_create tracer (invoke f) instance args kwargs w
    = (Return response, w')
    ∧ finished w' = finished w ++ [sp]
    ∧ length (attributes sp) = 18 + 3 * length choices
    ∧ NoDup (attributes sp).*1
    ∧ ∀ k v, (k, v) ∈ attributes sp → span_attribute sp k = Some v.
Proof.
  intros Hflag Hvalid Hf [r Hr] Hchoices.
  destruct (valid_request_projection kwargs Hvalid)
    as (model & messages & items & lines & _ & _ & _ & _ & Hreq).
  pose proof (read_response_choices response r choices Hr Hchoices) as Hfields.
  apply mapM_Some in Hfields. pose proof (Forall2_length _ _ _ Hfields) as Hlen.
  eexists (ended_span tracer
             (complete_attributes kwargs model (messages_text lines) r)), _.
  split.
  { eapply run_call_returns; [done..|]. by apply response_then_ok. }
  split; [done|]. cbn [ended_span attributes].
  split; [by rewrite length_complete_attributes, Hlen|].
  split; [apply NoDup_complete_attributes|].
  intros k v Hin. apply span_attribute_elem_of; [|done].
  apply NoDup_complete_attributes.
Qed.

(** X14. The scalar fields of the response.  After a call that went
    through, the span holds the id, the object and the creation time of the
    response and the three token counts of its usage, each as it is in the
    response. *)
Theorem response_scalars_are_recorded tracer (f : callable) instance args kwargs
    w (d u : pydict) s' :
  suppression_flag w = false →
  valid_request kwargs = true →
  f args kwargs (library w) = (Return (VDict d), s') →
  is_Some (read_response (VDict d)) →
  d !! "usage" = Some (VDict u) →
  ∃ sp w',
    _instrumented_create tracer (invoke f) instance args kwargs w
    = (Return (VDict d), w')
    ∧ finished w' = finished w ++ [sp]
    ∧ span_attribute sp "openai.chat.response.id" = d !! "id"
    ∧ span_attribute sp "openai.chat.response.object" = d !! "object"
    ∧ span_attribute sp "openai.chat.response.created" = d !! "created"
    ∧ span_attribute sp "openai.chat.response.usage.prompt_tokens"
      = u !! "prompt_tokens"
    ∧ span_attribute sp "openai.chat.response.usage.completion_tokens"
      = u !! "completion_tokens"
    ∧ span_attribute sp "openai.chat.response.usage.total_tokens"
      = u !! "total_tokens".
Proof.
  intros Hflag Hvalid Hf [r Hr] Husage.
  destruct (valid_request_projection kwargs Hvalid)
    as (model & messages & items & lines & _ & _ & _ & _ & Hreq).
  eexists (ended_span tracer
             (complete_attributes kwargs model (messages_text lines) r)), _.
  split.
  { eapply run_call_returns; [done..|]. by apply response_then_ok. }
  split; [done|].
  rewrite !span_attribute_last_value. cbn [ended_span attributes].
  unfold complete_attributes, response_attributes. rewrite !last_value_app.
  rewrite !(last_value_choices_other _ 0) by (by intros ?).
  simpl in Hr. rewrite Husage in Hr.
  destruct (d !! "id") as [id|]; [|done].
  destruct (d !! "object") as [object|]; [|done].
  destruct (d !! "created") as [created|]; [|done].
  destruct (d !! "choices") as [choices|]; [|done]. simpl in Hr.
  destruct (iterate choices) as [citems|]; [|done].
  destruct (mapM choice_fields citems) as [fields|]; [|done]. simpl in Hr.
  destruct (u !! "prompt_tokens") as [prompt|]; [|done].
  destruct (u !! "completion_tokens") as [completion|]; [|done].
  destruct (u !! "total_tokens") as [total|]; [|done].
  simpl in Hr. injection Hr as <-. by repeat split.
Qed.

(** *** Wrappers around wrappers *)

Lemma run_wrapped_returns tracer wrapped instance args kwargs w attrs response
    w1 extra :
  suppression_flag w = false →
  request_projection kwargs = (attrs, None) →
  wrapped args kwargs
    (record_attributes attrs (set_active (ended_span tracer [] :: active w) w))
  = (Return response, w1) →
  (∀ w0, response_then response w0 = (Return response, record_attributes extra w0)) →
  _instrumented_create tracer wrapped instance args kwargs w
  = (Return response, end_span (record_attributes extra w1)).
Proof.
  intros Hflag Hreq Hwrapped Hresp. rewrite run_unsuppressed by done.
  erewrite bind_run_return; [reflexivity|].
  unfold start_as_current_span. rewrite request_then_spec, Hreq.
  erewrite bind_run_return; [|exact Hwrapped].
  by rewrite Hresp.
Qed.

(** X15. Instrumenting twice.  With the wrapper installed twice, for the
    tracers [tracer1] and then [tracer2], a call that goes through invokes
    the original callable once and returns its value, and two spans are
    handed over with the same attributes: the span of the inner wrapper
    first, the span of the outer one, which encloses it, second. *)
Theorem double_instrumentation tracer1 tracer2 (f : callable) instance args
    kwargs w response s' :
  suppression_flag w = false →
  valid_request kwargs = true →
  f args kwargs (library w) = (Return response, s') →
  is_Some (read_response response) →
  ∃ attrs,
    call (_instrument_chat tracer2 (_instrument_chat tracer1 (Original f)))
      instance args kwargs w
    = (Return response,
       set_finished
         (finished w ++ [ended_span tracer1 attrs; ended_span tracer2 attrs])
         (invoke f args kwargs w).2)
    ∧ calls (invoke f args kwargs w).2 = calls w ++ [(args, kwargs)].
Proof.
  intros Hflag Hvalid Hf [r Hr].
  destruct (valid_request_projection kwargs Hvalid)
    as (model & messages & items & lines & _ & _ & _ & _ & Hreq).
  exists (complete_attributes kwargs model (messages_text lines) r).
  split; [|by rewrite invoke_run].
  change (call (_instrument_chat tracer2 (_instrument_chat tracer1 (Original f)))
            instance args kwargs w)
    with (_instrumented_create tracer2
            (_instrumented_create tracer1 (invoke f) instance)
            instance args kwargs w).
  set (inner := record_attributes
                  (request_attributes kwargs model (messages_text lines))
                  (set_active (ended_span tracer2 [] :: active w) w)).
  assert (suppression_flag inner = false) as Hflag' by exact Hflag.
  assert (f args kwargs (library inner) = (Return response, s')) as Hf'
    by exact Hf.
  rewrite (run_wrapped_returns tracer2
             (_instrumented_create tracer1 (invoke f) instance)
             instance args kwargs w _ response _ _ Hflag Hreq
             (run_call_returns tracer1 f instance args kwargs inner _ response s'
                _ _ Hflag' Hreq Hf' (response_then_ok response r Hr))
             (response_then_ok response r Hr)).
  subst inner.
  rewrite invoke_run, Hf. destruct w as [ctx lib cl act fin].
  unfold complete_attributes, ended_span, end_span, record_attributes, finish_span,
    count_call, set_finished, set_active, set_calls, set_library, add_attributes.
  cbn. by rewrite <- app_assoc.
Qed.

(** X16. Instrumenting and uninstrumenting nest.  Each [_uninstrument]
    removes one wrapper: after n calls of [_instrument_chat], n calls of
    [_uninstrument] give back what was there, and any further ones leave the
    original function alone. *)
Theorem uninstrument_peels_one_wrapper tracer (create : method) (f : callable) n m :
  Nat.iter n _uninstrument (Nat.iter n (_instrument_chat tracer) create) = create
  ∧ Nat.iter (m + n) _uninstrument
      (Nat.iter n (_instrument_chat tracer) (Original f)) = Original f.
Proof.
  assert (∀ c, Nat.iter n _uninstrument (Nat.iter n (_instrument_chat tracer) c) = c)
    as Hn.
  { induction n as [|n IH]; intros c; [done|].
    rewrite Nat.iter_succ_r. cbn [Nat.iter]. apply IH. }
  split; [apply Hn|].
  rewrite Nat.iter_add, Hn.
  induction m as [|m IH]; [done|]. by rewrite Nat.iter_succ, IH.
Qed.


End Instrumentation.

Arguments Build_world {State}.
Arguments context {State}.
Arguments library {State}.
Arguments calls {State}.
Arguments active {State}.
Arguments finished {State}.
Arguments set_finished {State}.
Arguments invoke {State}.
Arguments call {State}.
Arguments Original {State}.
Arguments FunctionWrapper {State}.
Arguments suppression_flag {State}.
Arguments _instrumented_create {State}.
Arguments _instrument_chat {State}.
Arguments _uninstrument {State}.

(** ** The instrumentor *)

(** [d.get(k)]: the value under the key, [None] when the key is not there. *)
Definition dict_get (d : pydict) (k : string) : pyval :=
  match d !! k with
  | Some v => v
  | None => VNone
  end.

(** The class [OpenAIInstrumentor]: its methods, each as a function of the
    attribute [openai.ChatCompletion.create] it patches. *)
Module OpenAIInstrumentor.
Section Methods.

Context {State : Type}.
Variable py_str : pyval → string.
Variable _SUPPRESS_INSTRUMENTATION_KEY : string.

(** [opentelemetry.trace.get_tracer(instrumenting_module_name,
    instrumenting_library_version, tracer_provider)]. *)
Variable get_tracer : string → string → pyval → Tracer.

(** [__version__] of the package's [version] module and [_instruments] of its
    [package] module. *)
Variable __version__ : string.
Variable _instruments : list string.

(** The name of the module [opentelemetry/instrumentation/openai/__init__.py]. *)
Definition __name__ : string := "opentelemetry.instrumentation.openai".

Definition instrumentation_dependencies (self : pyval) : list string :=
  _instruments.

Definition _instrument (self : pyval) (kwargs : pydict) (create : method State)
    : method State :=
  let tracer_provider := dict_get kwargs "tracer_provider" in
  let tracer := get_tracer __name__ __version__ tracer_provider in
  _instrument_chat py_str _SUPPRESS_INSTRUMENTATION_KEY tracer create.

Definition _uninstrument (self : pyval) (kwargs : pydict) (create : method State)
    : method State :=
  _uninstrument create.

End Methods.
End OpenAIInstrumentor.

(** X17. The tracer of the instrumentor.  Once [OpenAIInstrumentor._instrument]
    has run, a call that is not suppressed hands over a span of the tracer
    that [get_tracer] gives for this module's name, the package's version and
    the [tracer_provider] option, [None] when the option is not passed; the
    other options are not read.  [OpenAIInstrumentor._uninstrument], whatever
    its options, makes calls go to the original callable again. *)
Theorem instrumentor_spans_carry_the_tracer {State} py_str key get_tracer version
    self (options options' : pydict) (f : callable State) instance args kwargs
    (w : world State) :
  suppression_flag key w = false →
  (∃ o sp w',
     call (OpenAIInstrumentor._instrument py_str key get_tracer version self
             options (Original f)) instance args kwargs w = (o, w')
     ∧ finished w' = finished w ++ [sp]
     ∧ span_name sp = "openai.chat"
     ∧ span_tracer sp
       = get_tracer "opentelemetry.instrumentation.openai" version
           (match options !! "tracer_provider" with
            | Some provider => provider
            | None => VNone
            end))
  ∧ call (OpenAIInstrumentor._uninstrument self options'
            (OpenAIInstrumentor._instrument py_str key get_tracer version self
               options (Original f))) instance args kwargs w
    = invoke f args kwargs w.
Proof.
  intros Hflag. split; [|reflexivity].
  destruct (instrumented_call_ends_span State py_str key
              (get_tracer OpenAIInstrumentor.__name__ version
                 (dict_get options "tracer_provider"))
              f instance args kwargs w Hflag)
    as (sp & Hfinished & Hname & Htracer).
  destruct (call (OpenAIInstrumentor._instrument py_str key get_tracer version
                    self options (Original f)) instance args kwargs w)
    as [o w'] eqn:Hrun.
  exists o, sp, w'. split; [reflexivity|].
  unfold OpenAIInstrumentor._instrument in Hrun. cbv zeta in Hrun.
  rewrite Hrun in Hfinished. by repeat split.
Qed.

(** ** A sample session *)

(** A library that counts its calls in its state, a tracer, a request with
    two messages and an explicit [stream=False], and the responses used to
    exercise the properties above. *)
Module Sample.

Definition tracer : Tracer :=
  {| instrumenting_module := "opentelemetry.instrumentation.openai";
     instrumenting_version := "0.0.1" |}.

Definition key : string := "suppress_instrumentation".

Definition py_str (v : pyval) : string :=
  match v with
  | VNone => "None"
  | VBool true => "True"
  | VBool false => "False"
  | VInt z => pretty z
  | _ => "<object>"
  end.

Definition message (role content : string) : pyval :=
  VDict {[ "role" := VStr role; "content" := VStr content ]}.

Definition messages : list pyval :=
  [ message "user" "Hi"; message "assistant" "Hello" ].

Definition kwargs : pydict :=
  {[ "model" := VStr "gpt-3.5-turbo"; "messages" := VList messages;
     "stream" := VBool false; "n" := VInt 2 ]}.

Definition choice (content finish_reason : string) : pyval :=
  VDict {[ "message" := message "assistant" content;
           "finish_reason" := VStr finish_reason ]}.

Definition choices : list pyval :=
  [ choice "Hello there" "stop"; choice "Good day" "length" ].

Definition usage : pyval :=
  VDict {[ "prompt_tokens" := VInt 9; "completion_tokens" := VInt 4;
           "total_tokens" := VInt 13 ]}.

Definition response : pyval :=
  VDict {[ "id" := VStr "chatcmpl-1"; "object" := VStr "chat.completion";
           "created" := VInt 1700000000; "choices" := VList choices;
           "usage" := usage ]}.

(** The same response without its [id]. *)
Definition response_without_id : pyval :=
  VDict {[ "object" := VStr "chat.completion";
           "created" := VInt 1700000000; "choices" := VList choices;
           "usage" := usage ]}.

Definition rate_limit : exn := LibraryError "RateLimitError" (VStr "slow down").

Definition create : callable nat := λ _ _ n, (Return response, S n).

Definition create_raises : callable nat := λ _ _ n, (Raise rate_limit, S n).

Definition create_without_id : callable nat :=
  λ _ _ n, (Return response_without_id, S n).

(** A callable that takes the model and the messages positionally. *)
Definition create_positional : callable nat := λ args _ n,
  match args with
  | [VStr _; VList _] => (Return response, S n)
  | _ => (Raise TypeError, n)
  end.

Definition positional : list pyval := [VStr "gpt-3.5-turbo"; VList messages].

Definition start : world nat :=
  {| context := ∅; library := 0; calls := []; active := []; finished := [] |}.

Definition suppressed : world nat :=
  {| context := {[ key := VBool true ]}; library := 0; calls := [];
     active := []; finished := [] |}.

End Sample.

(** The sample call, run: the response comes back, the library was called
    once, and one span was ended with these attributes in this order. *)
Example sample_call :
  let '(o, w') := _instrumented_create Sample.py_str Sample.key Sample.tracer
                    (invoke Sample.create) VNone [] Sample.kwargs Sample.start in
  o = Return Sample.response ∧ library w' = 1 ∧ active w' = [] ∧
  attributes <$> finished w' =
  [ [ ("openai.chat.model", VStr "gpt-3.5-turbo");
      ("openai.chat.temperature", VFloat 1);
      ("openai.chat.top_p", VFloat 1);
      ("openai.chat.n", VInt 2);
      ("openai.chat.stream", VBool false);
      ("openai.chat.stop", VStr "");
      ("openai.chat.max_tokens", VFloat infinity);
      ("openai.chat.presence_penalty", VFloat 0);
      ("openai.chat.frequency_penalty", VFloat 0);
      ("openai.chat.logit_bias", VStr "");
      ("openai.chat.name", VStr "");
      ("openai.chat.messages",
       VStr ("user: Hi" +:+ newline +:+ "assistant: Hello" +:+ newline));
      ("openai.chat.response.id", VStr "chatcmpl-1");
      ("openai.chat.response.object", VStr "chat.completion");
      ("openai.chat.response.created", VInt 1700000000);
      ("openai.chat.response.choices.0.message.role", VStr "assistant");
      ("openai.chat.response.choices.0.message.content", VStr "Hello there");
      ("openai.chat.response.choices.0.finish_reason", VStr "stop");
      ("openai.chat.response.choices.1.message.role", VStr "assistant");
      ("openai.chat.response.choices.1.message.content", VStr "Good day");
      ("openai.chat.response.choices.1.finish_reason", VStr "length");
      ("openai.chat.response.usage.prompt_tokens", VInt 9);
      ("openai.chat.response.usage.completion_tokens", VInt 4);
      ("openai.chat.response.usage.total_tokens", VInt 13) ] ].
Proof. vm_compute. repeat split; reflexivity. Qed.

(** ** The properties on the sample session *)

Import Sample.

(** C1 on the sample call. *)
Lemma wrapped_call_is_transparent_witness :
  ∃ sp,
    _instrumented_create py_str key tracer (invoke create) VNone [] kwargs start
    = (Return response,
       set_finished (finished start ++ [sp]) (invoke create [] kwargs start).2)
    ∧ (invoke create [] kwargs start).1 = Return response
    ∧ calls (invoke create [] kwargs start).2 = calls start ++ [([], kwargs)]
    ∧ library (invoke create [] kwargs start).2 = 1.
Proof.
  apply (wrapped_call_is_transparent nat py_str key tracer create VNone []
           kwargs start response 1).
  - reflexivity.
  - vm_compute. reflexivity.
  - reflexivity.
  - eexists. vm_compute. reflexivity.
Defined.

(** C2 on the sample call, the flag set. *)
Lemma suppressed_call_short_circuits_witness :
  _instrumented_create py_str key tracer (invoke create) VNone [] kwargs suppressed
  = (Return VNone, suppressed).
Proof.
  apply (suppressed_call_short_circuits nat py_str key tracer (invoke create)
           VNone [] kwargs suppressed).
  vm_compute. reflexivity.
Defined.

(** C3 on the sample call: [stream=False] and [n=2] are supplied, the other
    optional fields are not. *)
Lemma optional_fields_default_witness :
  ∃ o sp w',
    _instrumented_create py_str key tracer (invoke create) VNone [] kwargs start
    = (o, w')
    ∧ finished w' = finished start ++ [sp]
    ∧ ∀ field dflt, (field, dflt) ∈ optional_defaults →
        span_attribute sp (attribute_key field)
        = Some (match kwargs !! field with Some v => v | None => dflt end)
        ∧ (∀ v, kwargs !! field = Some v →
             span_attribute sp (attribute_key field) = Some v)
        ∧ (kwargs !! field = None ↔
             span_attribute sp (attribute_key field) = Some dflt
             ∧ kwargs !! field ≠ span_attribute sp (attribute_key field)).
Proof.
  apply (optional_fields_default nat py_str key tracer create VNone [] kwargs
           start (VStr "gpt-3.5-turbo")).
  - reflexivity.
  - vm_compute. reflexivity.
Defined.

(** C4 on the sample call: the two messages of the example. *)
Lemma messages_are_flattened_witness :
  ∃ o sp w',
    _instrumented_create py_str key tracer (invoke create) VNone [] kwargs start
    = (o, w')
    ∧ finished w' = finished start ++ [sp]
    ∧ span_attribute sp "openai.chat.messages"
      = Some (VStr ("user: Hi" +:+ newline +:+ "assistant: Hello" +:+ newline)).
Proof.
  apply (messages_are_flattened nat py_str key tracer create VNone [] kwargs
           start (VStr "gpt-3.5-turbo") messages
           [("user", "Hi"); ("assistant", "Hello")]).
  - reflexivity.
  - vm_compute. reflexivity.
  - vm_compute. reflexivity.
  - repeat constructor; eexists; (split; [reflexivity|]);
      split; vm_compute; reflexivity.
Defined.

(** C6 on the sample call, the library raising. *)
Lemma callable_exception_propagates_witness :
  ∃ sp w',
    _instrumented_create py_str key tracer (invoke create_raises) VNone [] kwargs start
    = (Raise rate_limit, w')
    ∧ finished w' = finished start ++ [sp]
    ∧ active w' = active start
    ∧ Forall (λ kv, ¬ response_key kv.1) (attributes sp)
    ∧ calls w' = calls start ++ [([], kwargs)].
Proof.
  apply (callable_exception_propagates nat py_str key tracer create_raises VNone
           [] kwargs start rate_limit 1).
  - reflexivity.
  - vm_compute. reflexivity.
  - reflexivity.
Defined.

(** C7 on a call without keyword arguments. *)
Lemma missing_request_field_raises_witness :
  ∃ k sp w',
    _instrumented_create py_str key tracer (invoke create) VNone [] ∅ start
    = (Raise (KeyError k), w')
    ∧ (k = "model" ∨ k = "messages") ∧ (∅ : pydict) !! k = None
    ∧ w' = set_finished (finished start ++ [sp]) start
    ∧ calls w' = calls start ∧ library w' = library start.
Proof.
  apply (missing_request_field_raises nat py_str key tracer (invoke create) VNone
           [] ∅ start).
  - reflexivity.
  - left. reflexivity.
Defined.

(** C8 on the sample call, the response without its [id]. *)
Lemma incomplete_response_raises_witness :
  ∃ sp w',
    _instrumented_create py_str key tracer (invoke create_without_id) VNone []
      kwargs start
    = (Raise (KeyError "id"), w')
    ∧ (invoke create_without_id [] kwargs start).1 = Return response_without_id
    ∧ calls w' = calls start ++ [([], kwargs)]
    ∧ library w' = 1
    ∧ finished w' = finished start ++ [sp]
    ∧ active w' = active start.
Proof.
  apply (incomplete_response_raises nat py_str key tracer create_without_id VNone
           [] kwargs start response_without_id 1 "id").
  - reflexivity.
  - vm_compute. reflexivity.
  - reflexivity.
  - apply lacks_id. vm_compute. reflexivity.
Defined.

(** C5 on the sample call: two choices, two sets. *)
Lemma choices_are_flattened_witness :
  ∃ sp,
    span_attribute sp (choice_key 0 "message.content") = Some (VStr "Hello there")
    ∧ span_attribute sp (choice_key 1 "message.content") = Some (VStr "Good day")
    ∧ span_attribute sp (choice_key 1 "finish_reason") = Some (VStr "length")
    ∧ span_attribute sp (choice_key 2 "message.content") = None
    ∧ length (filter (λ kv : string * pyval, choices_key kv.1) (attributes sp)) = 6
    ∧ ∃ w',
        _instrumented_create py_str key tracer (invoke create) VNone [] kwargs start
        = (Return response, w')
        ∧ finished w' = finished start ++ [sp].
Proof.
  destruct (choices_are_flattened nat py_str key tracer create VNone [] kwargs
              start response 1
              {| response_id := VStr "chatcmpl-1";
                 response_object := VStr "chat.completion";
                 response_created := VInt 1700000000;
                 response_choices :=
                   [ (VStr "assistant", VStr "Hello there", VStr "stop");
                     (VStr "assistant", VStr "Good day", VStr "length") ];
                 usage_prompt_tokens := VInt 9;
                 usage_completion_tokens := VInt 4;
                 usage_total_tokens := VInt 13 |}
              choices)
    as (sp & w' & Hrun & Hfinished & _ & _ & Hlength & Hinside & Houtside).
  - reflexivity.
  - vm_compute. reflexivity.
  - reflexivity.
  - vm_compute. reflexivity.
  - vm_compute. reflexivity.
  - exists sp.
    destruct (Hinside 0 _ _ _ eq_refl) as (_ & Hcontent0 & _).
    destruct (Hinside 1 _ _ _ eq_refl) as (_ & Hcontent1 & Hfinish1).
    repeat split; try assumption.
    + apply Houtside. simpl. lia.
    + by exists w'.
Defined.

(** C10 on a call that passes the model and the messages positionally: the
    original takes it, the instrumented one raises. *)
Lemma positional_arguments_are_not_read_witness :
  (call (Original create_positional) VNone positional ∅ start).1 = Return response
  ∧ ∃ sp w',
      call (_instrument_chat py_str key tracer (Original create_positional))
        VNone positional ∅ start
      = (Raise (KeyError "model"), w')
      ∧ w' = set_finished (finished start ++ [sp]) start
      ∧ calls w' = calls start ∧ library w' = library start.
Proof.
  apply (positional_arguments_are_not_read nat py_str key tracer create_positional
           VNone positional ∅ start response 1).
  - reflexivity.
  - reflexivity.
  - reflexivity.
Defined.

(** ** Requests and responses that go wrong *)

(** More of the sample session: requests with no messages, with a message
    that has no content, with a string for messages, with a content that is
    [None]; a library that returns [None]; a second tracer; a [get_tracer]
    that keeps the name and the version it is given. *)
Module SampleFaults.

Definition request (messages : pyval) : pydict :=
  {[ "model" := VStr "gpt-3.5-turbo"; "messages" := messages ]}.

Definition without_messages : pydict := {[ "model" := VStr "gpt-3.5-turbo" ]}.

Definition no_content : pyval := VDict {[ "role" := VStr "user" ]}.

Definition function_call : pyval :=
  VDict {[ "role" := VStr "assistant"; "content" := VNone ]}.

Definition usage_body : pydict :=
  {[ "prompt_tokens" := VInt 9; "completion_tokens" := VInt 4;
     "total_tokens" := VInt 13 ]}.

Definition response_body : pydict :=
  {[ "id" := VStr "chatcmpl-1"; "object" := VStr "chat.completion";
     "created" := VInt 1700000000; "choices" := VList Sample.choices;
     "usage" := VDict usage_body ]}.

Definition create_none : callable nat := λ _ _ n, (Return VNone, S n).

Definition outer_tracer : Tracer :=
  {| instrumenting_module := "application"; instrumenting_version := "1.0" |}.

Definition get_tracer (name version : string) (tracer_provider : pyval) : Tracer :=
  {| instrumenting_module := name; instrumenting_version := version |}.

End SampleFaults.

Import SampleFaults.

(** X1 on the sample call. *)
Lemma every_call_ends_one_span_witness :
  ∃ o sp w',
    _instrumented_create py_str key tracer (invoke create) VNone [] kwargs start
    = (o, w')
    ∧ finished w' = finished start ++ [sp]
    ∧ span_name sp = "openai.chat" ∧ span_tracer sp = tracer
    ∧ active w' = active start ∧ context w' = context start
    ∧ (calls w' = calls start ∧ library w' = library start
       ∨ calls w' = calls start ++ [([], kwargs)]
         ∧ library w' = (create [] kwargs (library start)).2).
Proof.
  apply (every_call_ends_one_span nat py_str key tracer create VNone [] kwargs
           start).
  reflexivity.
Defined.

(** X2 on the sample call. *)
Lemma model_is_recorded_witness :
  ∃ o sp w',
    _instrumented_create py_str key tracer (invoke create) VNone [] kwargs start
    = (o, w')
    ∧ finished w' = finished start ++ [sp]
    ∧ span_attribute sp "openai.chat.model" = Some (VStr "gpt-3.5-turbo").
Proof.
  apply (model_is_recorded nat py_str key tracer create VNone [] kwargs start
           (VStr "gpt-3.5-turbo")).
  - reflexivity.
  - vm_compute. reflexivity.
Defined.

(** X3 on a request without messages. *)
Lemma invalid_request_is_not_forwarded_witness :
  ∃ e attrs,
    _instrumented_create py_str key tracer (invoke create) VNone []
      without_messages start
    = (Raise e, set_finished (finished start ++ [ended_span tracer attrs]) start)
    ∧ lookup_error e
    ∧ match without_messages !! "model" with
      | None => e = KeyError "model" ∧ attrs = []
      | Some model =>
          attrs = (attribute_key "model", model)
                  :: optional_attributes without_messages
      end.
Proof.
  apply (invalid_request_is_not_forwarded nat py_str key tracer (invoke create)
           VNone [] without_messages start).
  - reflexivity.
  - vm_compute. reflexivity.
Defined.

(** X4 on a request whose second message has no content. *)
Lemma faulty_message_raises_witness :
  _instrumented_create py_str key tracer (invoke create) VNone []
    (request (VList [message "user" "Hi"; no_content])) start
  = (Raise (KeyError "content"),
     set_finished
       (finished start ++ [ended_span tracer
          ((attribute_key "model", VStr "gpt-3.5-turbo")
           :: optional_attributes
                (request (VList [message "user" "Hi"; no_content])))]) start).
Proof.
  apply (faulty_message_raises nat py_str key tracer (invoke create) VNone []
           (request (VList [message "user" "Hi"; no_content])) start
           (VStr "gpt-3.5-turbo") [message "user" "Hi"] no_content []
           (KeyError "content")).
  - reflexivity.
  - vm_compute. reflexivity.
  - vm_compute. reflexivity.
  - repeat constructor.
  - apply fault_no_content.
    + eexists. vm_compute. reflexivity.
    + vm_compute. reflexivity.
Defined.

(** X5 on a request whose messages are one string. *)
Lemma unusable_messages_raise_type_error_witness :
  _instrumented_create py_str key tracer (invoke create) VNone []
    (request (VStr "Hi")) start
  = (Raise TypeError,
     set_finished
       (finished start ++ [ended_span tracer
          ((attribute_key "model", VStr "gpt-3.5-turbo")
           :: optional_attributes (request (VStr "Hi")))]) start).
Proof.
  apply (unusable_messages_raise_type_error nat py_str key tracer (invoke create)
           VNone [] (request (VStr "Hi")) start (VStr "gpt-3.5-turbo")
           (VStr "Hi")).
  - reflexivity.
  - vm_compute. reflexivity.
  - vm_compute. reflexivity.
  - reflexivity.
Defined.

(** X6 on a request whose messages are the empty string. *)
Lemma empty_messages_go_through_witness :
  ∃ o sp w',
    _instrumented_create py_str key tracer (invoke create) VNone []
      (request (VStr "")) start = (o, w')
    ∧ finished w' = finished start ++ [sp]
    ∧ span_attribute sp "openai.chat.messages" = Some (VStr "")
    ∧ calls w' = calls start ++ [([], request (VStr ""))].
Proof.
  apply (empty_messages_go_through nat py_str key tracer create VNone []
           (request (VStr "")) start (VStr "gpt-3.5-turbo") (VStr "")).
  - reflexivity.
  - vm_compute. reflexivity.
  - vm_compute. reflexivity.
  - right. left. reflexivity.
Defined.

(** X7 on a request whose one message has [None] for content. *)
Lemma messages_are_formatted_witness :
  ∃ o sp w',
    _instrumented_create py_str key tracer (invoke create) VNone []
      (request (VList [function_call])) start = (o, w')
    ∧ finished w' = finished start ++ [sp]
    ∧ span_attribute sp "openai.chat.messages"
      = Some (VStr ("assistant: None" +:+ newline)).
Proof.
  apply (messages_are_formatted nat py_str key tracer create VNone []
           (request (VList [function_call])) start (VStr "gpt-3.5-turbo")
           [function_call] [(VStr "assistant", VNone)]).
  - reflexivity.
  - vm_compute. reflexivity.
  - vm_compute. reflexivity.
  - repeat constructor. eexists. split; [reflexivity|].
    split; vm_compute; reflexivity.
Defined.

(** X9 on the sample call, the library returning [None]. *)
Lemma response_not_a_mapping_raises_witness :
  ∃ model text,
    kwargs !! "model" = Some model
    ∧ _instrumented_create py_str key tracer (invoke create_none) VNone [] kwargs
        start
      = (Raise TypeError,
         set_finished
           (finished start
            ++ [ended_span tracer (request_attributes kwargs model text)])
           (invoke create_none [] kwargs start).2)
    ∧ length (request_attributes kwargs model text) = 12.
Proof.
  apply (response_not_a_mapping_raises nat py_str key tracer create_none VNone []
           kwargs start VNone 1).
  - reflexivity.
  - vm_compute. reflexivity.
  - reflexivity.
  - intros d. discriminate.
Defined.

(** X10 on the sample call. *)
Lemma call_returns_iff_witness :
  (_instrumented_create py_str key tracer (invoke create) VNone [] kwargs start).1
  = Return response
  ↔ valid_request kwargs = true
    ∧ (create [] kwargs (library start)).1 = Return response
    ∧ is_Some (read_response response).
Proof.
  apply (call_returns_iff nat py_str key tracer create VNone [] kwargs start
           response).
  reflexivity.
Defined.

(** X12 on the sample call, the library raising. *)
Lemma failed_call_span_has_the_request_witness :
  ∃ model text,
    kwargs !! "model" = Some model
    ∧ _instrumented_create py_str key tracer (invoke create_raises) VNone []
        kwargs start
      = (Raise rate_limit,
         set_finished
           (finished start
            ++ [ended_span tracer (request_attributes kwargs model text)])
           (invoke create_raises [] kwargs start).2)
    ∧ length (request_attributes kwargs model text) = 12
    ∧ head (request_attributes kwargs model text)
      = Some ("openai.chat.model", model)
    ∧ last (request_attributes kwargs model text)
      = Some ("openai.chat.messages", VStr text).
Proof.
  apply (failed_call_span_has_the_request nat py_str key tracer create_raises
           VNone [] kwargs start rate_limit 1).
  - reflexivity.
  - vm_compute. reflexivity.
  - reflexivity.
Defined.

(** X13 on the sample call: two choices, 24 attributes. *)
Lemma complete_span_keys_are_distinct_witness :
  ∃ sp w',
    _instrumented_create py_str key tracer (invoke create) VNone [] kwargs start
    = (Return response, w')
    ∧ finished w' = finished start ++ [sp]
    ∧ length (attributes sp) = 24
    ∧ NoDup (attributes sp).*1
    ∧ ∀ k v, (k, v) ∈ attributes sp → span_attribute sp k = Some v.
Proof.
  apply (complete_span_keys_are_distinct nat py_str key tracer create VNone []
           kwargs start response 1 choices).
  - reflexivity.
  - vm_compute. reflexivity.
  - reflexivity.
  - eexists. vm_compute. reflexivity.
  - vm_compute. reflexivity.
Defined.

(** X14 on the sample call. *)
Lemma response_scalars_are_recorded_witness :
  ∃ sp w',
    _instrumented_create py_str key tracer (invoke create) VNone [] kwargs start
    = (Return (VDict response_body), w')
    ∧ finished w' = finished start ++ [sp]
    ∧ span_attribute sp "openai.chat.response.id" = response_body !! "id"
    ∧ span_attribute sp "openai.chat.response.object" = response_body !! "object"
    ∧ span_attribute sp "openai.chat.response.created"
      = response_body !! "created"
    ∧ span_attribute sp "openai.chat.response.usage.prompt_tokens"
      = usage_body !! "prompt_tokens"
    ∧ span_attribute sp "openai.chat.response.usage.completion_tokens"
      = usage_body !! "completion_tokens"
    ∧ span_attribute sp "openai.chat.response.usage.total_tokens"
      = usage_body !! "total_tokens".
Proof.
  apply (response_scalars_are_recorded nat py_str key tracer create VNone []
           kwargs start response_body usage_body 1).
  - reflexivity.
  - vm_compute. reflexivity.
  - reflexivity.
  - eexists. vm_compute. reflexivity.
  - vm_compute. reflexivity.
Defined.

(** X15 on the sample call, instrumented for two tracers. *)
Lemma double_instrumentation_witness :
  ∃ attrs,
    call (_instrument_chat py_str key outer_tracer
            (_instrument_chat py_str key tracer (Original create)))
      VNone [] kwargs start
    = (Return response,
       set_finished
         (finished start
          ++ [ended_span tracer attrs; ended_span outer_tracer attrs])
         (invoke create [] kwargs start).2)
    ∧ calls (invoke create [] kwargs start).2 = calls start ++ [([], kwargs)].
Proof.
  apply (double_instrumentation nat py_str key tracer outer_tracer create VNone
           [] kwargs start response 1).
  - reflexivity.
  - vm_compute. reflexivity.
  - reflexivity.
  - eexists. vm_compute. reflexivity.
Defined.

(** X17 on the sample call, the instrumentor run without options. *)
Lemma instrumentor_spans_carry_the_tracer_witness :
  (∃ o sp w',
     call (OpenAIInstrumentor._instrument py_str key get_tracer "0.0.1" VNone ∅
             (Original create)) VNone [] kwargs start = (o, w')
     ∧ finished w' = finished start ++ [sp]
     ∧ span_name sp = "openai.chat"
     ∧ span_tracer sp = tracer)
  ∧ call (OpenAIInstrumentor._uninstrument VNone ∅
            (OpenAIInstrumentor._instrument py_str key get_tracer "0.0.1" VNone ∅
               (Original create))) VNone [] kwargs start
    = invoke create [] kwargs start.
Proof.
  apply (instrumentor_spans_carry_the_tracer py_str key get_tracer "0.0.1" VNone
           ∅ ∅ create VNone [] kwargs start).
  reflexivity.
Defined.

